(** * Account validator: a shallow embedding of [validgenfinal.py]

    The development follows the layout of the Python module: the globals
    (output file, logger), the [AccountValidator] object with its counters
    and configuration, the two configuration dialogs, the two pipeline tasks
    ([fetch_response], [process_response]), the statistics, and
    [run_validation].

    Modelling conventions.
    - Python integers are [Z]; [time.time()] values and the derived
      statistics are rationals ([Q]): only sign tests and the zero test of a
      divisor are used on them.
    - Text is [string] (ASCII).  [str] is the decimal printer of the
      Standard Library, for integers within the interpreter's limit of 4300
      digits; [py_int] follows the grammar of Python's [int()] on ASCII text
      and [int_value] adds that limit.
    - The output file is its content, a [string]; the logger is the list of
      records it was handed, newest last.
    - Statements that may raise run in a state-and-exception monad [M]; what
      the outside world does (the network, the file system, the clock, the
      person at the prompt) is an explicit argument of the function that
      asks for it.
    - A pool task ([fetch_response], [process_response]) is one atomic step
      of the state, and a submitted process task runs at once;
      [run_validation] takes the order in which the fetches complete as an
      argument.  A keyboard interrupt is not modelled. *)

From Stdlib Require Import ZArith QArith List String Ascii Bool Lia.
From Stdlib Require Import Permutation Sorted FinFun.
From Stdlib Require Import DecimalString DecimalZ DecimalPos DecimalFacts.
Import ListNotations.

Local Open Scope string_scope.
Local Open Scope Z_scope.

(** ** Python values used by the module *)

Module Py.

(** The exception classes the module meets.  All of them derive from
    [Exception], so an [except Exception] clause catches each of them. *)
Inductive exc_class :=
| ValueError
| RequestException
| OSError
| ZeroDivisionError
| TypeError
| RuntimeError
| EOFError.

Record exception := Exc { exc_class_of : exc_class; exc_text : string }.

Definition exc_class_eqb (a b : exc_class) : bool :=
  match a, b with
  | ValueError, ValueError
  | RequestException, RequestException
  | OSError, OSError
  | ZeroDivisionError, ZeroDivisionError
  | TypeError, TypeError
  | RuntimeError, RuntimeError
  | EOFError, EOFError => true
  | _, _ => false
  end.

(** How a statement ends: with a value, or with an exception in flight. *)
Inductive outcome (A : Type) :=
| Returned (a : A)
| Raised (e : exception).
Arguments Returned {A} a.
Arguments Raised {A} e.

Definition newline : string := String (ascii_of_nat 10) "".

(** [str(i)] for an integer. *)
Definition str (i : Z) : string := NilZero.string_of_int (Z.to_int i).

(** [len(s)], as an integer. *)
Definition len (s : string) : Z := Z.of_nat (String.length s).

(** Whitespace that [int()] strips on both sides (ASCII part of
    [str.isspace]). *)
Definition is_space (c : ascii) : bool :=
  let n := nat_of_ascii c in
  ((n =? 32) || ((9 <=? n) && (n <=? 13)) || ((28 <=? n) && (n <=? 31)))%nat.

Definition digit_of_char (c : ascii) : option Z :=
  let n := nat_of_ascii c in
  if ((48 <=? n) && (n <=? 57))%nat then Some (Z.of_nat n - 48) else None.

Fixpoint lstrip (s : string) : string :=
  match s with
  | String c s' => if is_space c then lstrip s' else s
  | EmptyString => EmptyString
  end.

Fixpoint string_rev_append (s acc : string) : string :=
  match s with
  | EmptyString => acc
  | String c s' => string_rev_append s' (String c acc)
  end.

Definition string_rev (s : string) : string := string_rev_append s "".

Definition strip (s : string) : string :=
  string_rev (lstrip (string_rev (lstrip s))).

(** Digits with single underscores between them; [after_digit] tells whether
    the previous character was a digit (an underscore needs one on both
    sides), [acc] is the value read so far. *)
Fixpoint int_digits (s : string) (acc : Z) (after_digit : bool) : option Z :=
  match s with
  | EmptyString => if after_digit then Some acc else None
  | String c s' =>
      match digit_of_char c with
      | Some d => int_digits s' (10 * acc + d) true
      | None =>
          if (Ascii.eqb c "_" && after_digit)%bool
          then int_digits s' acc false
          else None
      end
  end.

(** The integer that [s] denotes by the grammar of [int(s)] in base ten;
    [None] where the grammar refuses [s].  The limit on the number of digits
    is left to [int_value]. *)
Definition py_int (s : string) : option Z :=
  match strip s with
  | String c s' =>
      if Ascii.eqb c "-" then option_map Z.opp (int_digits s' 0 false)
      else if Ascii.eqb c "+" then int_digits s' 0 false
      else int_digits (String c s') 0 false
  | EmptyString => None
  end.

(** The interpreter's default limit on the digits of a decimal integer
    string ([sys.int_info.default_max_str_digits]). *)
Definition max_str_digits : Z := 4300.

(** The number of digit characters of [s]; leading zeros count, the sign,
    white space and underscores do not. *)
Fixpoint digit_count (s : string) : Z :=
  match s with
  | EmptyString => 0
  | String c s' =>
      match digit_of_char c with
      | Some _ => 1 + digit_count s'
      | None => digit_count s'
      end
  end.

(** What [int(s)] returns: [None] stands for [ValueError], which is raised
    for text outside the grammar and for text of more than [max_str_digits]
    digits. *)
Definition int_value (s : string) : option Z :=
  if digit_count s <=? max_str_digits then py_int s else None.

(** [a / b] on numbers: true division, raising on a zero divisor. *)
Definition truediv (a b : Q) : outcome Q :=
  if Qeq_bool b 0 then Raised (Exc ZeroDivisionError "division by zero")
  else Returned (a / b)%Q.

(** [range(a, b)]. *)
Definition range (a b : Z) : list Z :=
  map (fun k => a + Z.of_nat k) (seq 0 (Z.to_nat (b - a))).

End Py.
Import Py.

(** ** The state: the validator object, the output file and the logger *)

Inductive level := DEBUG | INFO | WARNING | ERROR.

Definition headers := list (string * string).

(** The attributes set by [AccountValidator.__init__]. *)
Record AccountValidator := mkValidator {
  valid_count : Z;
  checked_count : Z;
  error_count : Z;
  rate_limit_count : Z;
  start_time : option Q;
  fetch_workers : Z;
  process_workers : Z;
  range_start : Z;
  range_end : Z;
  is_running : bool
}.

Definition init : AccountValidator :=
  {| valid_count := 0; checked_count := 0; error_count := 0;
     rate_limit_count := 0; start_time := None;
     fetch_workers := 10; process_workers := 5;
     range_start := 1000000000000000; range_end := 1000000000009999;
     is_running := false |}.

(** [self], the content of the file [VALID_ACCOUNTS], and what [logger]
    received. *)
Record world := mkWorld {
  self : AccountValidator;
  valid_accounts : string;
  logged : list (level * string)
}.

Definition with_self (f : AccountValidator -> AccountValidator) (w : world) : world :=
  {| self := f (self w); valid_accounts := valid_accounts w; logged := logged w |}.

Definition set_valid_count (n : Z) (v : AccountValidator) : AccountValidator :=
  mkValidator n (checked_count v) (error_count v) (rate_limit_count v)
    (start_time v) (fetch_workers v) (process_workers v)
    (range_start v) (range_end v) (is_running v).

Definition set_checked_count (n : Z) (v : AccountValidator) : AccountValidator :=
  mkValidator (valid_count v) n (error_count v) (rate_limit_count v)
    (start_time v) (fetch_workers v) (process_workers v)
    (range_start v) (range_end v) (is_running v).

Definition set_error_count (n : Z) (v : AccountValidator) : AccountValidator :=
  mkValidator (valid_count v) (checked_count v) n (rate_limit_count v)
    (start_time v) (fetch_workers v) (process_workers v)
    (range_start v) (range_end v) (is_running v).

Definition set_rate_limit_count (n : Z) (v : AccountValidator) : AccountValidator :=
  mkValidator (valid_count v) (checked_count v) (error_count v) n
    (start_time v) (fetch_workers v) (process_workers v)
    (range_start v) (range_end v) (is_running v).

Definition set_start_time (t : option Q) (v : AccountValidator) : AccountValidator :=
  mkValidator (valid_count v) (checked_count v) (error_count v)
    (rate_limit_count v) t (fetch_workers v) (process_workers v)
    (range_start v) (range_end v) (is_running v).

Definition set_fetch_workers (n : Z) (v : AccountValidator) : AccountValidator :=
  mkValidator (valid_count v) (checked_count v) (error_count v)
    (rate_limit_count v) (start_time v) n (process_workers v)
    (range_start v) (range_end v) (is_running v).

Definition set_process_workers (n : Z) (v : AccountValidator) : AccountValidator :=
  mkValidator (valid_count v) (checked_count v) (error_count v)
    (rate_limit_count v) (start_time v) (fetch_workers v) n
    (range_start v) (range_end v) (is_running v).

Definition set_range_start (n : Z) (v : AccountValidator) : AccountValidator :=
  mkValidator (valid_count v) (checked_count v) (error_count v)
    (rate_limit_count v) (start_time v) (fetch_workers v) (process_workers v)
    n (range_end v) (is_running v).

Definition set_range_end (n : Z) (v : AccountValidator) : AccountValidator :=
  mkValidator (valid_count v) (checked_count v) (error_count v)
    (rate_limit_count v) (start_time v) (fetch_workers v) (process_workers v)
    (range_start v) n (is_running v).

Definition set_is_running (b : bool) (v : AccountValidator) : AccountValidator :=
  mkValidator (valid_count v) (checked_count v) (error_count v)
    (rate_limit_count v) (start_time v) (fetch_workers v) (process_workers v)
    (range_start v) (range_end v) b.

(** ** Statements: state passing with exceptions *)

Definition M (A : Type) : Type := world -> outcome A * world.

Definition ret {A} (a : A) : M A := fun w => (Returned a, w).

Definition raise {A} (e : exception) : M A := fun w => (Raised e, w).

Definition bind {A B} (c : M A) (k : A -> M B) : M B :=
  fun w =>
    match c w with
    | (Returned a, w') => k a w'
    | (Raised e, w') => (Raised e, w')
    end.

Declare Scope py_scope.
Delimit Scope py_scope with py.
Notation "x <- c ;; k" := (bind c (fun x => k))
  (at level 61, c at next level, right associativity) : py_scope.
Notation "c ;; k" := (bind c (fun _ => k))
  (at level 61, right associativity) : py_scope.
Local Open Scope py_scope.

(** [try: body / except <classes>: handler]: [handler e] is [None] when no
    clause matches [e], which then travels on. *)
Definition try_except {A} (body : M A) (handler : exception -> option (M A)) : M A :=
  fun w =>
    match body w with
    | (Returned a, w') => (Returned a, w')
    | (Raised e, w') =>
        match handler e with
        | Some h => h w'
        | None => (Raised e, w')
        end
    end.

(** [try: body / finally: fin]: [fin] runs however [body] ends; the pair
    holds what each of them produced. *)
Definition try_finally {A B} (body : M A) (fin : M B) : M (A * B) :=
  fun w =>
    match body w with
    | (r, w') =>
        match fin w', r with
        | (Returned b, w''), Returned a => (Returned (a, b), w'')
        | (Returned _, w''), Raised e => (Raised e, w'')
        | (Raised e, w''), _ => (Raised e, w'')
        end
    end.

Fixpoint for_each {A} (l : list A) (body : A -> M unit) : M unit :=
  match l with
  | [] => ret tt
  | a :: l' => body a ;; for_each l' body
  end.

Definition lift {A} (o : outcome A) : M A := fun w => (o, w).

Definition get_self : M AccountValidator := fun w => (Returned (self w), w).

Definition update (f : AccountValidator -> AccountValidator) : M unit :=
  fun w => (Returned tt, with_self f w).

(** [logger.<level>(msg)]: the handlers do not raise. *)
Definition logger (l : level) (msg : string) : M unit :=
  fun w => (Returned tt,
            {| self := self w; valid_accounts := valid_accounts w;
               logged := logged w ++ [(l, msg)] |}).

(** [int(s)] as a statement. *)
Definition int (s : string) : M Z :=
  match int_value s, py_int s with
  | Some z, _ => ret z
  | None, None =>
      raise (Exc ValueError ("invalid literal for int() with base 10: " ++ s))
  | None, Some _ =>
      raise (Exc ValueError "Exceeds the limit (4300 digits) for integer string conversion")
  end.

(** ** The outside world *)

(** What the file system does with one [open]. *)
Inductive io_result :=
| IoOk
| IoError (msg : string).

(** What [requests.get] does for one probe. *)
Inductive net_result :=
| Response (status_code : Z) (hdrs : headers)
| NetRaises (e : exception).

(** [Prompt.ask(..., default=d)]: the default stands in for an empty line. *)
Definition Prompt_ask (typed default : string) : string :=
  if String.eqb typed "" then default else typed.

(** [with open(VALID_ACCOUNTS, mode) as f: f.write(text)]: a refused [open]
    raises [OSError] before anything is written; mode ["w"] truncates,
    mode ["a"] appends. *)
Definition open_write (io : io_result) (truncate : bool) (text : string) : M unit :=
  fun w =>
    match io with
    | IoError msg => (Raised (Exc OSError msg), w)
    | IoOk =>
        (Returned tt,
         {| self := self w;
            valid_accounts := (if truncate then "" else valid_accounts w) ++ text;
            logged := logged w |})
    end.

(** ** The module's functions *)

(** [setup_files()]: [io] is what the [open(VALID_ACCOUNTS, "w")] meets. *)
Definition setup_files (io : io_result) : M unit :=
  open_write io true "" ;;
  logger INFO "Output files initialized. Results will be saved to valid_accounts.txt".

(** The except clauses of the module. *)
Definition except_ValueError {A} (h : M A) (e : exception) : option (M A) :=
  if exc_class_eqb (exc_class_of e) ValueError then Some h else None.

Definition except_RequestException {A} (h : exception -> M A) (e : exception)
  : option (M A) :=
  if exc_class_eqb (exc_class_of e) RequestException then Some (h e) else None.

Definition except_Exception {A} (h : exception -> M A) (e : exception)
  : option (M A) := Some (h e).

(** [set_custom_range]: [typed_start] and [typed_end] are the two lines
    given at the prompts. *)
Definition set_custom_range (typed_start typed_end : string) : M bool :=
  try_except
    (v <- get_self ;;
     let start := Prompt_ask typed_start (str (range_start v)) in
     let end_ := Prompt_ask typed_end (str (range_end v)) in
     start <- int start ;;
     end_ <- int end_ ;;
     if negb (len (str start) =? 16) || negb (len (str end_) =? 16) then
       ret false
     else if start >=? end_ then
       ret false
     else
       update (set_range_start start) ;;
       update (set_range_end end_) ;;
       ret true)
    (except_ValueError (ret false)).

(** [configure_threads]: [typed_fetch] and [typed_process] are the two lines
    given at the prompts. *)
Definition configure_threads (typed_fetch typed_process : string) : M bool :=
  try_except
    (v <- get_self ;;
     let fetch := Prompt_ask typed_fetch (str (fetch_workers v)) in
     let process := Prompt_ask typed_process (str (process_workers v)) in
     fetch <- int fetch ;;
     process <- int process ;;
     update (set_fetch_workers (Z.max 1 (Z.min fetch 50))) ;;
     update (set_process_workers (Z.max 1 (Z.min process 20))) ;;
     ret true)
    (except_ValueError (ret false)).

(** [requests.get(url, timeout=5)] for one probe. *)
Definition requests_get (r : net_result) : M (Z * headers) :=
  match r with
  | Response status_code hdrs => ret (status_code, hdrs)
  | NetRaises e => raise e
  end.

(** [fetch_response(account_number)]: [r] is what the network does for this
    probe. *)
Definition fetch_response (r : net_result) (account_number : string)
  : M (string * option Z * option headers) :=
  try_except
    (response <- requests_get r ;;
     v <- get_self ;;
     update (set_checked_count (checked_count v + 1)) ;;
     ret (account_number, Some (fst response), Some (snd response)))
    (except_RequestException (fun e =>
       v <- get_self ;;
       update (set_error_count (error_count v + 1)) ;;
       logger ERROR ("Error fetching account " ++ account_number ++ ": " ++ exc_text e) ;;
       ret (account_number, None, None))).

(** The body of the [try] of [process_response]. *)
Definition process_response_try (io : io_result) (account_number : string)
  (status_code : Z) : M unit :=
  if status_code =? 200 then
    open_write io false (account_number ++ newline) ;;
    v <- get_self ;;
    update (set_valid_count (valid_count v + 1)) ;;
    logger INFO ("Valid account found: " ++ account_number)
  else if status_code =? 429 then
    v <- get_self ;;
    update (set_rate_limit_count (rate_limit_count v + 1)) ;;
    logger WARNING "Rate limit reached. Pausing for 10 seconds."
  else if status_code =? 404 then
    ret tt
  else
    logger WARNING ("Unexpected status " ++ str status_code ++ " for account " ++ account_number).

(** [process_response(account_number, status_code, headers)]: [io] is what
    the [open(VALID_ACCOUNTS, "a")] meets, should the task reach it. *)
Definition process_response (io : io_result) (account_number : string)
  (status_code : Z) (hdrs : option headers) : M unit :=
  try_except
    (process_response_try io account_number status_code)
    (except_Exception (fun e =>
       v <- get_self ;;
       update (set_error_count (error_count v + 1)) ;;
       logger ERROR ("Error processing account " ++ account_number ++ ": " ++ exc_text e))).

(** *** Statistics *)

Inductive stats_panel :=
| NoStatistics
| Statistics (checked valid errors rate_limits : Z) (elapsed rate : Q).

(** [not self.start_time]. *)
Definition not_started (t : option Q) : bool :=
  match t with
  | None => true
  | Some t0 => Qeq_bool t0 0
  end.

(** [x > 0] on a number. *)
Definition Qpositive (x : Q) : bool := negb (Qle_bool x 0).

(** [create_stats_table()]: [now] is what [time.time()] returns; the result
    is the content of the panel. *)
Definition create_stats_table (now : Q) : M stats_panel :=
  v <- get_self ;;
  if not_started (start_time v) then ret NoStatistics
  else
    elapsed <- match start_time v with
               | Some t0 => ret (now - t0)%Q
               | None => raise (Exc TypeError "unsupported operand type(s) for -")
               end ;;
    rate <- (if Qpositive elapsed
             then lift (truediv (inject_Z (checked_count v)) elapsed)
             else ret 0%Q) ;;
    ret (Statistics (checked_count v) (valid_count v) (error_count v)
           (rate_limit_count v) elapsed rate).

(** The rows of the table printed when a run ends; [res_rate] is [None]
    where the table shows a dash. *)
Record results_table := mkResults {
  res_checked : Z;
  res_checked_pct : Q;
  res_valid : Z;
  res_valid_pct : Q;
  res_errors : Z;
  res_rate_limits : Z;
  res_elapsed : Q;
  res_rate : option Q
}.

(** The [finally] block of [run_validation]: [now] is what [time.time()]
    returns there.  (The log record leaves the elapsed time out.) *)
Definition final_results (now : Q) (total_accounts : Z) : M results_table :=
  update (set_is_running false) ;;
  v <- get_self ;;
  elapsed <- match start_time v with
             | Some t0 => ret (now - t0)%Q
             | None => raise (Exc TypeError "unsupported operand type(s) for -")
             end ;;
  logger INFO ("Validation completed. Checked: " ++ str (checked_count v)
               ++ ", Valid: " ++ str (valid_count v)) ;;
  checked_pct <- (if total_accounts >? 0
                  then q <- lift (truediv (inject_Z (checked_count v))
                                    (inject_Z total_accounts)) ;;
                       ret (q * 100)%Q
                  else ret 0%Q) ;;
  valid_pct <- (if checked_count v >? 0
                then q <- lift (truediv (inject_Z (valid_count v))
                                  (inject_Z (checked_count v))) ;;
                     ret (q * 100)%Q
                else ret 0%Q) ;;
  rate <- (if Qpositive elapsed
           then q <- lift (truediv (inject_Z (checked_count v)) elapsed) ;;
                ret (Some q)
           else ret None) ;;
  ret (mkResults (checked_count v) checked_pct (valid_count v) valid_pct
         (error_count v) (rate_limit_count v) elapsed rate).

(** *** The run *)

(** What the outside world does during one call of [run_validation]. *)
Record run_input := mkRun {
  setup_io : io_result;              (* the [open] of [setup_files] *)
  confirmed : bool;                  (* the answer to "Start validation?" *)
  time_start : Q;                    (* [time.time()] when the run starts *)
  time_end : Q;                      (* [time.time()] in the [finally] block *)
  network : string -> net_result;    (* the probe of each account *)
  append_io : string -> io_result;   (* the [open] for each valid account *)
  as_completed : list string -> list string
                                     (* the submitted accounts, in the order
                                        in which their fetches complete *)
}.

(** The generator of line 251. *)
Definition account_numbers (v : AccountValidator) : list string :=
  map str (range (range_start v) (range_end v + 1)).

(** [executor.submit(task)]: what the task raises stays in its future. *)
Definition submit {A} (task : M A) : M unit :=
  fun w => (Returned tt, snd (task w)).

(** The body of the loop over the completed fetches. *)
Definition drain (x : run_input) (account : string) : M unit :=
  try_except
    (r <- fetch_response (network x account) account ;;
     let '(account_number, status_code, hdrs) := r in
     match status_code with
     | Some sc =>
         submit (process_response (append_io x account_number)
                   account_number sc hdrs)
     | None => ret tt
     end)
    (except_Exception (fun e =>
       v <- get_self ;;
       update (set_error_count (error_count v + 1)) ;;
       logger ERROR ("Future processing error: " ++ exc_text e))).

(** [run_validation()].  The result is the table printed at the end, or
    [None] when the run was not confirmed.  Both thread pools are taken as
    built, which [ThreadPoolExecutor] does for positive worker counts only;
    [__init__] and [configure_threads] keep the counts positive. *)
Definition run_validation (x : run_input) : M (option results_table) :=
  setup_files (setup_io x) ;;
  if negb (confirmed x) then ret None
  else
    update (set_is_running true) ;;
    update (set_start_time (Some (time_start x))) ;;
    v <- get_self ;;
    logger INFO ("Starting validation process with range "
                 ++ str (range_start v) ++ "-" ++ str (range_end v)) ;;
    let total_accounts := range_end v - range_start v + 1 in
    r <- try_finally
           (try_except
              (for_each (as_completed x (account_numbers v)) (drain x))
              (except_Exception (fun e =>
                 logger ERROR ("Unexpected error in validation process: "
                               ++ exc_text e))))
           (final_results (time_end x) total_accounts) ;;
    ret (Some (snd r)).

(** ** Concrete inputs used by the examples *)

Module Scenario.

(** A validator just constructed, an empty output file, an empty log. *)
Definition fresh : world := mkWorld init "" [].

(** The same with the range of the five accounts
    [1000000000000000 .. 1000000000000004]. *)
Definition five : world := with_self (set_range_end 1000000000000004) fresh.

Definition timed_out : net_result :=
  NetRaises (Exc RequestException "Read timed out. (read timeout=5)").

(** A run in which every probe times out. *)
Definition all_time_out : run_input :=
  mkRun IoOk true 10 12 (fun _ => timed_out) (fun _ => IoOk) (fun l => l).

(** A run in which the first account is valid, the last one is rate
    limited and the others do not exist; the fetches complete in the
    reverse of the order of submission. *)
Definition mixed_network (account : string) : net_result :=
  if String.eqb account "1000000000000000" then Response 200 []
  else if String.eqb account "1000000000000004" then Response 429 []
  else Response 404 [].

Definition mixed : run_input :=
  mkRun IoOk true 10 12 mixed_network (fun _ => IoOk) (@rev string).

(** A world left by an earlier run: a validator with counts, the output
    file with one line. *)
Definition used : world :=
  mkWorld (mkValidator 1 7 2 3 (Some 5%Q) 10 5
             1000000000000000 1000000000009999 false)
    ("1000000000000123" ++ newline) [].

(** A validator whose run has just started, read at the very instant of
    the start. *)
Definition started : world := with_self (set_start_time (Some 10%Q)) fresh.

End Scenario.

(** ** Vocabulary of the statements *)

(** What [process_response] leaves behind when its [try] body raised [e]
    in the world [w]: one more error, one more log record. *)
Definition after_processing_error (account : string) (e : exception) (w : world) : world :=
  {| self := set_error_count (error_count (self w) + 1) (self w);
     valid_accounts := valid_accounts w;
     logged := logged w
               ++ [(ERROR, "Error processing account " ++ account ++ ": " ++ exc_text e)] |}.

(** The four counters of a validator: checked, valid, errors, rate limits. *)
Definition counters (v : AccountValidator) : Z * Z * Z * Z :=
  (checked_count v, valid_count v, error_count v, rate_limit_count v).

(** The configuration of a validator: range and worker counts. *)
Definition configuration (v : AccountValidator) : Z * Z * Z * Z :=
  (range_start v, range_end v, fetch_workers v, process_workers v).

(** A probe ends in a transport error. *)
Definition transport_error (r : net_result) : Prop :=
  exists e, r = NetRaises e /\ exc_class_of e = RequestException.

(** The account is confirmed valid in the run [x] and its line reaches the
    output file. *)
Definition saved (x : run_input) (account : string) : bool :=
  match network x account, append_io x account with
  | Response sc _, IoOk => sc =? 200
  | _, _ => false
  end.

(** One line per account. *)
Fixpoint lines (l : list string) : string :=
  match l with
  | [] => ""
  | a :: l' => a ++ newline ++ lines l'
  end.

Definition io_ok (io : io_result) : bool :=
  match io with
  | IoOk => true
  | IoError _ => false
  end.

(** A statement whose result and whose effect on [self] are determined by
    [self] alone: it reads neither the output file nor the log. *)
Definition reads_only_self {A} (c : M A) : Prop :=
  forall w w' : world,
    self w = self w' ->
    fst (c w) = fst (c w') /\ self (snd (c w)) = self (snd (c w')).

(** The world in which the [finally] block of a run leaves [w]. *)
Definition after_final_results (w : world) : world :=
  {| self := set_is_running false (self w);
     valid_accounts := valid_accounts w;
     logged := logged w
               ++ [(INFO, "Validation completed. Checked: " ++ str (checked_count (self w))
                          ++ ", Valid: " ++ str (valid_count (self w)))] |}.

(** Everything of a validator that is not a counter. *)
Definition settings (v : AccountValidator)
  : option Q * Z * Z * Z * Z * bool :=
  (start_time v, fetch_workers v, process_workers v,
   range_start v, range_end v, is_running v).

(** The world in which a confirmed run enters its loop: the output file is
    empty, the validator is running and has its start time. *)
Definition run_start (x : run_input) (w : world) : world :=
  {| self := set_start_time (Some (time_start x)) (set_is_running true (self w));
     valid_accounts := "";
     logged := (logged w
                ++ [(INFO, "Output files initialized. Results will be saved to valid_accounts.txt")])
               ++ [(INFO, "Starting validation process with range "
                          ++ str (range_start (self w)) ++ "-" ++ str (range_end (self w)))] |}.

(** The accounts of a run, in the order in which their fetches complete. *)
Definition completed (x : run_input) (w : world) : list string :=
  as_completed x (account_numbers (self w)).

(** The world after the loop of a confirmed run. *)
Definition run_loop (x : run_input) (w : world) : world :=
  snd (for_each (completed x w) (drain x) (run_start x w)).

(** Order on candidates, by the integers they denote. *)
Definition candidate_lt (a b : string) : Prop :=
  exists m n, py_int a = Some m /\ py_int b = Some n /\ m < n.

(** Text without white space. *)
Fixpoint no_space (s : string) : bool :=
  match s with
  | EmptyString => true
  | String c s' => negb (is_space c) && no_space s'
  end.

(** The text each prompt hands to [int()]: the typed line, or the current
    value when the line is empty. *)
Definition start_text (typed : string) (w : world) : string :=
  Prompt_ask typed (str (range_start (self w))).

Definition end_text (typed : string) (w : world) : string :=
  Prompt_ask typed (str (range_end (self w))).

Definition fetch_text (typed : string) (w : world) : string :=
  Prompt_ask typed (str (fetch_workers (self w))).

Definition process_text (typed : string) (w : world) : string :=
  Prompt_ask typed (str (process_workers (self w))).

(** [str(z)] does not raise: [z] has at most [max_str_digits] digits. *)
Definition printable (z : Z) : Prop := len (str (Z.abs z)) <= max_str_digits.

(** ** The menu and its panels *)

Inductive status := Ready | Running.

(** The rows of the configuration table, numbers before their formatting. *)
Record config_table := mkConfig {
  cfg_range_start : Z;
  cfg_range_end : Z;
  cfg_total_accounts : Z;
  cfg_fetch_workers : string;
  cfg_process_workers : string;
  cfg_status : status
}.

(** [create_config_table()]. *)
Definition create_config_table : M config_table :=
  v <- get_self ;;
  ret (mkConfig (range_start v) (range_end v)
         (range_end v - range_start v + 1)
         (str (fetch_workers v)) (str (process_workers v))
         (if negb (is_running v) then Ready else Running)).

(** [show_stats_panel()]: the two panels it prints; [now] is what
    [time.time()] returns in [create_stats_table]. *)
Definition show_stats_panel (now : Q) : M (config_table * stats_panel) :=
  config <- create_config_table ;;
  stats <- create_stats_table now ;;
  ret (config, stats).

(** One turn of the menu: the option chosen, with what the outside world
    does while it is served. *)
Inductive menu_entry :=
| Option1 (x : run_input)
| Option2 (typed_start typed_end : string)
| Option3 (typed_fetch typed_process : string)
| Option4 (now : Q)
| Option5.

(** The loop of [main_menu]: each turn shows the panels (at time [now]),
    then serves the option.  The result lists the panels shown, in order.
    The turns are all the input the program gets: option 5 leaves the loop
    and what follows it is not read; when the turns run out before option 5,
    the prompt for the option meets the end of the input. *)
Fixpoint main_menu_loop (session : list (Q * menu_entry))
  : M (list (config_table * stats_panel)) :=
  match session with
  | [] => raise (Exc EOFError "EOF when reading a line")
  | (now, entry) :: rest =>
      top <- show_stats_panel now ;;
      match entry with
      | Option1 x =>
          run_validation x ;;
          more <- main_menu_loop rest ;; ret (top :: more)
      | Option2 typed_start typed_end =>
          set_custom_range typed_start typed_end ;;
          more <- main_menu_loop rest ;; ret (top :: more)
      | Option3 typed_fetch typed_process =>
          configure_threads typed_fetch typed_process ;;
          more <- main_menu_loop rest ;; ret (top :: more)
      | Option4 now' =>
          again <- show_stats_panel now' ;;
          more <- main_menu_loop rest ;; ret (top :: again :: more)
      | Option5 =>
          logger INFO "Application closed by user" ;;
          ret [top]
      end
  end.

(** [main_menu()]: the menu works on a validator of its own. *)
Definition main_menu (session : list (Q * menu_entry))
  : M (list (config_table * stats_panel)) :=
  update (fun _ => init) ;;
  main_menu_loop session.

(** ** Vocabulary of the further statements *)

(** The probe of the account is answered with a response. *)
Definition answered (x : run_input) (account : string) : bool :=
  match network x account with
  | Response _ _ => true
  | NetRaises _ => false
  end.

(** The probe of the account is answered with status 429. *)
Definition rate_limited (x : run_input) (account : string) : bool :=
  match network x account with
  | Response sc _ => sc =? 429
  | NetRaises _ => false
  end.

(** The account is answered with status 200 and the output file cannot be
    opened for it. *)
Definition append_refused (x : run_input) (account : string) : bool :=
  match network x account, append_io x account with
  | Response sc _, IoError _ => sc =? 200
  | _, _ => false
  end.

(** How many accounts of [l] satisfy [p]. *)
Definition tally (p : string -> bool) (l : list string) : Z :=
  Z.of_nat (List.length (filter p l)).

(** How many error records the logger received. *)
Definition errors_logged (w : world) : Z :=
  Z.of_nat (List.length
              (filter (fun r => match fst r with ERROR => true | _ => false end)
                 (logged w))).

(** The range and the worker counts pass the tests of the two dialogs. *)
Definition config_ok (v : AccountValidator) : Prop :=
  len (str (range_start v)) = 16 /\ len (str (range_end v)) = 16
  /\ range_start v < range_end v
  /\ 1 <= fetch_workers v <= 50 /\ 1 <= process_workers v <= 20.

(** The counters are sound: none is negative, and what was found valid or
    rate limited was checked. *)
Definition counters_ok (v : AccountValidator) : Prop :=
  0 <= valid_count v /\ 0 <= error_count v /\ 0 <= rate_limit_count v
  /\ valid_count v + rate_limit_count v <= checked_count v.

(** An integer whose [str] has 16 characters: 16 digits, or a minus sign and
    15 digits. *)
Definition passes_width (z : Z) : Prop :=
  1000000000000000 <= z < 10000000000000000
  \/ -1000000000000000 < z <= -100000000000000.

(** A validator at rest at the menu: the configuration passes the dialogs'
    tests, the counters are sound, and no run is marked as going on. *)
Definition at_rest (v : AccountValidator) : Prop :=
  config_ok v /\ counters_ok v /\ is_running v = false.

(** A panel shown while no run is going on, for a range of two accounts at
    least. *)
Definition shown_ready (screen : config_table * stats_panel) : Prop :=
  cfg_status (fst screen) = Ready /\ 2 <= cfg_total_accounts (fst screen).

(** A turn of the menu that is not a run. *)
Definition not_a_run (turn : Q * menu_entry) : Prop :=
  match snd turn with
  | Option1 _ => False
  | _ => True
  end.

(** The counters, the start time and the output file are the same in both
    worlds. *)
Definition same_results (w w' : world) : Prop :=
  counters (self w') = counters (self w)
  /\ start_time (self w') = start_time (self w)
  /\ valid_accounts w' = valid_accounts w.

(** What the option prompt raises at the end of the input. *)
Definition end_of_input : exception := Exc EOFError "EOF when reading a line".

(** The session reaches option 5. *)
Definition has_exit (session : list (Q * menu_entry)) : Prop :=
  exists now, In (now, Option5) session.

(** A turn whose run, if it is one, can open the output file. *)
Definition opens_file (turn : Q * menu_entry) : Prop :=
  match snd turn with
  | Option1 x => setup_io x = IoOk
  | _ => True
  end.

(** What a session can make [main_menu] raise: the [OSError] of a run that
    could not open the output file, or the end of the input when the session
    has no option 5. *)
Definition raised_by_session (session : list (Q * menu_entry)) (e : exception)
  : Prop :=
  (exists now x msg, In (now, Option1 x) session
     /\ setup_io x = IoError msg /\ e = Exc OSError msg)
  \/ (e = end_of_input /\ ~ has_exit session).

(** ** Further concrete inputs *)

Module Cases.

Fixpoint repeat_char (c : ascii) (n : nat) (rest : string) : string :=
  match n with
  | O => rest
  | S n' => String c (repeat_char c n' rest)
  end.

(** The number written with 4301 nines. *)
Definition nines_4301 : string := repeat_char "9" 4301 "".

(** 1000000000000000 written after 4300 zeros. *)
Definition padded_start : string := repeat_char "0" 4300 "1000000000000000".

(** A run whose output file cannot be opened. *)
Definition locked : run_input :=
  mkRun (IoError "Permission denied") true 10 12 Scenario.mixed_network
    (fun _ => IoOk) (fun l => l).

(** A run that is not confirmed at the prompt. *)
Definition declined : run_input :=
  mkRun IoOk false 10 12 Scenario.mixed_network (fun _ => IoOk) (fun l => l).

(** A run in which every account is answered with status 404, fetches
    completing in the order of submission. *)
Definition none_found : run_input :=
  mkRun IoOk true 10 12 (fun _ => Response 404 []) (fun _ => IoOk) (fun l => l).

(** The run of [Scenario.mixed] with the fetches completing in the order
    of submission. *)
Definition mixed_in_order : run_input :=
  mkRun IoOk true 10 12 Scenario.mixed_network (fun _ => IoOk) (fun l => l).

(** A run in which the valid account cannot be saved and one probe times
    out. *)
Definition troubled_network (account : string) : net_result :=
  if String.eqb account "1000000000000002" then Scenario.timed_out
  else Scenario.mixed_network account.

Definition troubled : run_input :=
  mkRun IoOk true 10 12 troubled_network
    (fun _ => IoError "No space left on device") (fun l => l).

(** The world after the run [none_found] on the five accounts. *)
Definition after_first_run : world := snd (run_validation none_found Scenario.five).

(** A session at the menu: a bad range, a good range, thread counts, a look
    at the statistics, a run, and exit. *)
Definition session : list (Q * menu_entry) :=
  [ (1%Q, Option2 "123" "456");
    (2%Q, Option2 "1000000000000000" "1000000000000004");
    (3%Q, Option3 "0" "100");
    (4%Q, Option4 5%Q);
    (6%Q, Option1 Scenario.mixed);
    (20%Q, Option5) ].

(** A session whose first run cannot open the output file. *)
Definition broken_session : list (Q * menu_entry) :=
  [ (1%Q, Option1 locked); (2%Q, Option3 "7" "7"); (3%Q, Option5) ].

(** A session without a run: a new range, thread counts, exit. *)
Definition quiet_session : list (Q * menu_entry) :=
  [ (1%Q, Option2 "2000000000000000" "2000000000000009");
    (2%Q, Option3 "8" "4"); (3%Q, Option5) ].

(** A session whose input ends before option 5. *)
Definition cut_session : list (Q * menu_entry) :=
  [ (1%Q, Option3 "8" "4"); (2%Q, Option4 3%Q) ].

End Cases.
Module StrFacts.

Lemma string_of_uint_length u :
  String.length (NilEmpty.string_of_uint u) = Decimal.nb_digits u.
Proof. induction u; simpl; congruence. Qed.

Lemma of_uint_acc_bounds l : forall acc,
  10 ^ Z.of_nat (Decimal.nb_digits l) * Z.pos acc <= Z.pos (Pos.of_uint_acc l acc)
  /\ Z.pos (Pos.of_uint_acc l acc) < 10 ^ Z.of_nat (Decimal.nb_digits l) * (Z.pos acc + 1).
Proof.
  induction l; intros acc; cbn [Pos.of_uint_acc Decimal.nb_digits];
    [ simpl; lia | .. ];
    rewrite Nat2Z.inj_succ, Z.pow_succ_r by lia;
    match goal with
    | |- context [Pos.of_uint_acc l ?a] => destruct (IHl a) as [Hlo Hhi]
    end;

    rewrite ?Pos2Z.inj_add, ?Pos2Z.inj_mul in Hlo, Hhi;
    assert (0 < 10 ^ Z.of_nat (Decimal.nb_digits l)) by (apply Z.pow_pos_nonneg; lia);
    nia.
Qed.

Lemma to_uint_normal p : Decimal.unorm (Pos.to_uint p) = Pos.to_uint p.
Proof.
  rewrite <- (DecimalPos.Unsigned.to_of (Pos.to_uint p)).
  now rewrite DecimalPos.Unsigned.of_to.
Qed.

Lemma to_uint_head p :
  match Pos.to_uint p with
  | Decimal.Nil | Decimal.D0 _ => False
  | _ => True
  end.
Proof.
  pose proof (to_uint_normal p) as Hn.
  pose proof (DecimalPos.Unsigned.to_uint_nonzero p) as Hz.
  pose proof (DecimalPos.Unsigned.to_uint_nonnil p) as Hnil.
  destruct (Pos.to_uint p) as [|l| | | | | | | | | ]; auto.
  rewrite DecimalFacts.unorm_D0 in Hn. unfold Decimal.unorm in Hn.
  destruct (Decimal.nzhead l) eqn:E.
  - injection Hn as <-. now apply Hz.
  - now apply (DecimalFacts.nzhead_nonzero l l); rewrite E.
  - discriminate. - discriminate. - discriminate. - discriminate.
  - discriminate. - discriminate. - discriminate. - discriminate.
  - discriminate.
Qed.

Lemma str_pos_length p :
  10 ^ (len (str (Z.pos p)) - 1) <= Z.pos p < 10 ^ len (str (Z.pos p)).
Proof.
  unfold str, len. cbn [Z.to_int NilZero.string_of_int].
  pose proof (to_uint_head p) as Hh.
  pose proof (DecimalPos.Unsigned.of_to p) as Hv.
  unfold NilZero.string_of_uint.
  destruct (Pos.to_uint p) as [|l|l|l|l|l|l|l|l|l|l]; try contradiction;
    rewrite string_of_uint_length; cbn [Decimal.nb_digits];
    cbn [Pos.of_uint] in Hv; injection Hv as <-;
    rewrite Nat2Z.inj_succ;
    replace (Z.succ (Z.of_nat (Decimal.nb_digits l)) - 1)
      with (Z.of_nat (Decimal.nb_digits l)) by lia;
    rewrite Z.pow_succ_r by lia;
    match goal with
    | |- context [Pos.of_uint_acc l ?a] =>
        destruct (of_uint_acc_bounds l a) as [Hlo Hhi]
    end;
    assert (0 < 10 ^ Z.of_nat (Decimal.nb_digits l)) by (apply Z.pow_pos_nonneg; lia);
    nia.
Qed.

(** The decimal string of a positive integer has [n] characters exactly
    when the integer lies in [[10^(n-1), 10^n)]. *)
Lemma str_pos_len_iff (z n : Z) :
  0 < z -> 0 < n -> (len (str z) = n <-> 10 ^ (n - 1) <= z < 10 ^ n).
Proof.
  intros Hz Hn. destruct z as [|p|p]; try lia.
  pose proof (str_pos_length p) as [Hlo Hhi].
  assert (Hlen : 0 <= len (str (Z.pos p))) by (unfold len; lia).
  split.
  - intros <-. split; assumption.
  - intros [Hlo' Hhi'].
    destruct (Z.lt_trichotomy (len (str (Z.pos p))) n) as [Hlt|[Heq|Hgt]]; auto.
    + assert (10 ^ len (str (Z.pos p)) <= 10 ^ (n - 1)) by (apply Z.pow_le_mono_r; lia).
      lia.
    + assert (10 ^ n <= 10 ^ (len (str (Z.pos p)) - 1)) by (apply Z.pow_le_mono_r; lia).
      lia.
Qed.

Lemma str_zero : str 0 = "0".
Proof. reflexivity. Qed.

(** The check [len(str(x)) != 16] on a bound that is not negative. *)
Lemma str_len_16 (z : Z) :
  0 <= z -> (len (str z) = 16 <-> 1000000000000000 <= z < 10000000000000000).
Proof.
  intros Hz. destruct (Z.eq_dec z 0) as [->|Hnz].
  - rewrite str_zero. unfold len. simpl. lia.
  - rewrite (str_pos_len_iff z 16) by lia.
    change (10 ^ (16 - 1)) with 1000000000000000.
    change (10 ^ 16) with 10000000000000000. tauto.
Qed.

Lemma to_int_not_nil z : Z.to_int z <> Decimal.Pos Decimal.Nil /\ Z.to_int z <> Decimal.Neg Decimal.Nil.
Proof.
  destruct z; cbn [Z.to_int]; split; try discriminate;
    intros [= E]; now apply (DecimalPos.Unsigned.to_uint_nonnil p).
Qed.

(** [str] is injective: distinct integers print differently. *)
Lemma str_inj (a b : Z) : str a = str b -> a = b.
Proof.
  unfold str. intros E.
  apply DecimalZ.to_int_inj.
  destruct (to_int_not_nil a) as [Ha1 Ha2], (to_int_not_nil b) as [Hb1 Hb2].
  pose proof (NilZero.isi (Z.to_int a) Ha1 Ha2) as Ia.
  pose proof (NilZero.isi (Z.to_int b) Hb1 Hb2) as Ib.
  rewrite E in Ia. congruence.
Qed.

End StrFacts.

(** ** [int(str(i))] *)

Module IntStr.

Lemma lstrip_no_space s : no_space s = true -> lstrip s = s.
Proof.
  destruct s as [|c s]; [reflexivity|]. cbn. intros H.
  apply andb_prop in H as [Hc _]. apply negb_true_iff in Hc. now rewrite Hc.
Qed.

Lemma rev_append_no_space s : forall acc,
  no_space s = true -> no_space acc = true ->
  no_space (string_rev_append s acc) = true.
Proof.
  induction s as [|c s IH]; intros acc Hs Hacc; [exact Hacc|].
  cbn in Hs. apply andb_prop in Hs as [Hc Hs].
  cbn. apply IH; [exact Hs|]. cbn. now rewrite Hc, Hacc.
Qed.

Lemma rev_append_rev_append s : forall a b,
  string_rev_append (string_rev_append s a) b = string_rev_append a (s ++ b).
Proof.
  induction s as [|c s IH]; intros a b; [reflexivity|].
  cbn. now rewrite IH.
Qed.

Lemma string_rev_involutive s : string_rev (string_rev s) = s.
Proof.
  unfold string_rev. rewrite rev_append_rev_append. cbn.
  induction s as [|c s IH]; cbn; [reflexivity | now rewrite IH].
Qed.

(** Text without white space is what [strip] leaves of it. *)
Lemma strip_no_space s : no_space s = true -> strip s = s.
Proof.
  intros H. unfold strip. rewrite (lstrip_no_space s H).
  rewrite lstrip_no_space by (now apply rev_append_no_space).
  apply string_rev_involutive.
Qed.

Lemma string_of_uint_no_space u : no_space (NilEmpty.string_of_uint u) = true.
Proof. induction u; cbn; auto. Qed.

Lemma digit_of_char_digits :
  digit_of_char "0" = Some 0 /\ digit_of_char "1" = Some 1
  /\ digit_of_char "2" = Some 2 /\ digit_of_char "3" = Some 3
  /\ digit_of_char "4" = Some 4 /\ digit_of_char "5" = Some 5
  /\ digit_of_char "6" = Some 6 /\ digit_of_char "7" = Some 7
  /\ digit_of_char "8" = Some 8 /\ digit_of_char "9" = Some 9.
Proof. repeat split; reflexivity. Qed.

Ltac read_digit :=
  cbn [int_digits];
  destruct digit_of_char_digits
    as (D0 & D1 & D2 & D3 & D4 & D5 & D6 & D7 & D8 & D9);
  rewrite ?D0, ?D1, ?D2, ?D3, ?D4, ?D5, ?D6, ?D7, ?D8, ?D9;
  clear D0 D1 D2 D3 D4 D5 D6 D7 D8 D9.

(** Reading the digits of [u] after a digit, with [acc] read so far. *)
Lemma int_digits_uint u : forall acc : positive,
  int_digits (NilEmpty.string_of_uint u) (Z.pos acc) true
  = Some (Z.pos (Pos.of_uint_acc u acc)).
Proof.
  induction u; intros acc;
    cbn [NilEmpty.string_of_uint Pos.of_uint_acc]; [reflexivity|..];
    read_digit;
    match goal with
    | |- context [Pos.of_uint_acc u ?a] => rewrite <- (IHu a)
    end; f_equal; lia.
Qed.

Lemma py_int_str_pos (p : positive) : py_int (str (Z.pos p)) = Some (Z.pos p).
Proof.
  unfold py_int, str. cbn [Z.to_int NilZero.string_of_int].
  pose proof (StrFacts.to_uint_head p) as Hh.
  pose proof (DecimalPos.Unsigned.of_to p) as Hv.
  unfold NilZero.string_of_uint.
  destruct (Pos.to_uint p) as [|u|u|u|u|u|u|u|u|u|u]; try contradiction;
    rewrite strip_no_space by apply string_of_uint_no_space;
    cbn [Pos.of_uint] in Hv; injection Hv as <-;
    cbn [NilEmpty.string_of_uint];
    match goal with
    | |- context [Ascii.eqb ?c "-"] =>
        change (Ascii.eqb c "-") with false; change (Ascii.eqb c "+") with false
    end;
    cbv iota; read_digit;
    match goal with
    | |- int_digits _ ?a true = _ =>
        let a' := eval cbv in a in change a with a'
    end;
    apply int_digits_uint.
Qed.

Lemma py_int_str_neg (p : positive) : py_int (str (Z.neg p)) = Some (Z.neg p).
Proof.
  pose proof (py_int_str_pos p) as Hpos.
  unfold py_int, str in *. cbn [Z.to_int NilZero.string_of_int] in *.
  assert (Hns : no_space (NilZero.string_of_uint (Pos.to_uint p)) = true).
  { unfold NilZero.string_of_uint.
    destruct (Pos.to_uint p); try apply string_of_uint_no_space; reflexivity. }
  rewrite strip_no_space in Hpos by exact Hns.
  rewrite strip_no_space by (cbn; exact Hns).
  cbn [Ascii.eqb Bool.eqb].
  pose proof (StrFacts.to_uint_head p) as Hh.
  unfold NilZero.string_of_uint in *.
  destruct (Pos.to_uint p) as [|u|u|u|u|u|u|u|u|u|u]; try contradiction;
    cbn [NilEmpty.string_of_uint Ascii.eqb Bool.eqb] in Hpos;
    cbn [NilEmpty.string_of_uint]; rewrite Hpos; reflexivity.
Qed.

(** Reading back what [str] printed gives the integer. *)
Lemma py_int_str (z : Z) : py_int (str z) = Some z.
Proof.
  destruct z as [|p|p];
    [reflexivity | apply py_int_str_pos | apply py_int_str_neg].
Qed.

End IntStr.

(** * Properties *)

(** ** The fetch task *)

Section FetchTask.

Variable account : string.
Variable w : world.

(** A probe that is answered counts as checked, whatever the status, and
    hands the status and the headers on. *)
Lemma fetch_response_answered (sc : Z) (hdrs : headers) :
  fetch_response (Response sc hdrs) account w
  = (Returned (account, Some sc, Some hdrs),
     with_self (set_checked_count (checked_count (self w) + 1)) w).
Proof. reflexivity. Qed.

(** A probe that ends in a [RequestException] counts as an error, is
    logged, and hands on no status. *)
Lemma fetch_response_failed (e : exception) :
  exc_class_of e = RequestException ->
  fetch_response (NetRaises e) account w
  = (Returned (account, None, None),
     {| self := set_error_count (error_count (self w) + 1) (self w);
        valid_accounts := valid_accounts w;
        logged := logged w
                  ++ [(ERROR, "Error fetching account " ++ account ++ ": " ++ exc_text e)] |}).
Proof.
  intros He. unfold fetch_response, try_except, except_RequestException.
  cbn. rewrite He. reflexivity.
Qed.

(** Any other exception leaves the task as it came. *)
Lemma fetch_response_crashed (e : exception) :
  exc_class_of e <> RequestException ->
  fetch_response (NetRaises e) account w = (Raised e, w).
Proof.
  intros He. unfold fetch_response, try_except, except_RequestException.
  cbn. destruct (exc_class_of e); try reflexivity. contradiction.
Qed.

(** The fetch task never touches the output file. *)
Lemma fetch_response_keeps_file (r : net_result) :
  valid_accounts (snd (fetch_response r account w)) = valid_accounts w.
Proof.
  destruct r as [sc hdrs|e].
  - reflexivity.
  - destruct (exc_class_eqb (exc_class_of e) RequestException) eqn:E.
    + rewrite fetch_response_failed; [reflexivity|].
      destruct (exc_class_of e); try discriminate; reflexivity.
    + rewrite fetch_response_crashed; [reflexivity|].
      intros H; rewrite H in E; discriminate.
Qed.

End FetchTask.

(** ** The process task *)

Section ProcessTask.

Variable account : string.
Variable hdrs : option headers.
Variable w : world.

Lemma process_response_200_ok :
  process_response IoOk account 200 hdrs w
  = (Returned tt,
     {| self := set_valid_count (valid_count (self w) + 1) (self w);
        valid_accounts := valid_accounts w ++ account ++ newline;
        logged := logged w ++ [(INFO, "Valid account found: " ++ account)] |}).
Proof. reflexivity. Qed.

Lemma process_response_200_io_error (msg : string) :
  process_response (IoError msg) account 200 hdrs w
  = (Returned tt, after_processing_error account (Exc OSError msg) w).
Proof. reflexivity. Qed.

Lemma process_response_429 (io : io_result) :
  process_response io account 429 hdrs w
  = (Returned tt,
     {| self := set_rate_limit_count (rate_limit_count (self w) + 1) (self w);
        valid_accounts := valid_accounts w;
        logged := logged w ++ [(WARNING, "Rate limit reached. Pausing for 10 seconds.")] |}).
Proof. reflexivity. Qed.

Lemma process_response_404 (io : io_result) :
  process_response io account 404 hdrs w = (Returned tt, w).
Proof. reflexivity. Qed.

Lemma process_response_other (io : io_result) (sc : Z) :
  sc <> 200 -> sc <> 429 -> sc <> 404 ->
  process_response io account sc hdrs w
  = (Returned tt,
     {| self := self w;
        valid_accounts := valid_accounts w;
        logged := logged w
                  ++ [(WARNING, "Unexpected status " ++ str sc ++ " for account " ++ account)] |}).
Proof.
  intros H200 H429 H404.
  unfold process_response, process_response_try, try_except.
  apply Z.eqb_neq in H200, H429, H404. rewrite H200, H429, H404.
  reflexivity.
Qed.

(** The [try] body raises only from the [open] of the output file, and then
    before anything changed. *)
Lemma process_response_try_raised (io : io_result) (sc : Z) (e : exception) (w1 : world) :
  process_response_try io account sc w = (Raised e, w1) ->
  sc = 200 /\ w1 = w /\ exists msg, io = IoError msg /\ e = Exc OSError msg.
Proof.
  unfold process_response_try.
  destruct (sc =? 200) eqn:E200.
  - apply Z.eqb_eq in E200. destruct io as [|msg]; cbn.
    + discriminate.
    + intros [= <- <-]. eauto.
  - destruct (sc =? 429); [cbn; discriminate|].
    destruct (sc =? 404); cbn; discriminate.
Qed.

(** The task itself never raises. *)
Lemma process_response_returns (io : io_result) (sc : Z) :
  fst (process_response io account sc hdrs w) = Returned tt.
Proof.
  destruct (Z.eq_dec sc 200) as [->|H200].
  - destruct io; reflexivity.
  - destruct (Z.eq_dec sc 429) as [->|H429]; [reflexivity|].
    destruct (Z.eq_dec sc 404) as [->|H404]; [reflexivity|].
    now rewrite process_response_other.
Qed.

End ProcessTask.

(** ** Reading integers *)

Section IntValue.

Variable s : string.

(** What [int()] returns is what the grammar gives. *)
Lemma int_value_some (z : Z) : int_value s = Some z -> py_int s = Some z.
Proof. unfold int_value. destruct (digit_count s <=? max_str_digits); congruence. Qed.

(** What the grammar refuses, [int()] refuses. *)
Lemma int_value_refused : py_int s = None -> int_value s = None.
Proof. unfold int_value. intros ->. now destruct (digit_count s <=? max_str_digits). Qed.

(** Within the limit on digits, [int()] returns what the grammar gives. *)
Lemma int_value_within_limit :
  digit_count s <= max_str_digits -> int_value s = py_int s.
Proof. unfold int_value. intros H. apply Z.leb_le in H. now rewrite H. Qed.

Lemma digit_count_le_len : digit_count s <= len s.
Proof.
  unfold len. induction s as [|c s' IH]; cbn [digit_count String.length].
  - reflexivity.
  - destruct (digit_of_char c); lia.
Qed.

End IntValue.

(** [int(str(z))] is [z] for an integer whose [str] is within the limit. *)
Lemma int_value_str (z : Z) : len (str z) <= max_str_digits -> int_value (str z) = Some z.
Proof.
  intros H. rewrite int_value_within_limit, IntStr.py_int_str; [reflexivity|].
  pose proof (digit_count_le_len (str z)). lia.
Qed.

(** ** The configuration dialogs *)

Section RangeDialog.

Variables typed_start typed_end : string.
Variable w : world.

(** Text that [int()] refuses, at either prompt, is answered with [False]
    and changes nothing. *)
Lemma set_custom_range_not_a_number :
  int_value (start_text typed_start w) = None \/ int_value (end_text typed_end w) = None ->
  set_custom_range typed_start typed_end w = (Returned false, w).
Proof.
  unfold set_custom_range, try_except, bind, get_self, int.
  fold (start_text typed_start w) (end_text typed_end w).
  intros [H|H].
  - rewrite H. destruct (py_int (start_text typed_start w)); reflexivity.
  - destruct (int_value (start_text typed_start w));
      [|destruct (py_int (start_text typed_start w)); reflexivity].
    rewrite H. destruct (py_int (end_text typed_end w)); reflexivity.
Qed.

(** The dialog on two integers: the two tests of the source, in order. *)
Lemma set_custom_range_numbers (s e : Z) :
  int_value (start_text typed_start w) = Some s -> int_value (end_text typed_end w) = Some e ->
  set_custom_range typed_start typed_end w
  = if negb (len (str s) =? 16) || negb (len (str e) =? 16) then (Returned false, w)
    else if s >=? e then (Returned false, w)
    else (Returned true, with_self (set_range_end e) (with_self (set_range_start s) w)).
Proof.
  intros Hs He.
  unfold set_custom_range, try_except, bind, get_self, int.
  fold (start_text typed_start w) (end_text typed_end w). rewrite Hs, He. cbn.
  destruct (negb (len (str s) =? 16) || negb (len (str e) =? 16)); [reflexivity|].
  destruct (s >=? e); reflexivity.
Qed.

(** The dialog never raises, and an answer [False] leaves the whole world
    as it was. *)
Lemma set_custom_range_false_unchanged :
  (exists b, fst (set_custom_range typed_start typed_end w) = Returned b)
  /\ (fst (set_custom_range typed_start typed_end w) = Returned false ->
      snd (set_custom_range typed_start typed_end w) = w).
Proof.
  destruct (int_value (start_text typed_start w)) as [s|] eqn:Hs;
    [destruct (int_value (end_text typed_end w)) as [e|] eqn:He|].
  - rewrite (set_custom_range_numbers s e Hs He).
    destruct (negb (len (str s) =? 16) || negb (len (str e) =? 16));
      [cbn; split; [now exists false | reflexivity]|].
    destruct (s >=? e); cbn; split;
      solve [now exists false | now exists true | reflexivity | discriminate].
  - rewrite set_custom_range_not_a_number by auto.
    cbn; split; [now exists false | reflexivity].
  - rewrite set_custom_range_not_a_number by auto.
    cbn; split; [now exists false | reflexivity].
Qed.

End RangeDialog.

Section ThreadDialog.

Variables typed_fetch typed_process : string.
Variable w : world.

Lemma configure_threads_not_a_number :
  int_value (fetch_text typed_fetch w) = None \/ int_value (process_text typed_process w) = None ->
  configure_threads typed_fetch typed_process w = (Returned false, w).
Proof.
  unfold configure_threads, try_except, bind, get_self, int.
  fold (fetch_text typed_fetch w) (process_text typed_process w).
  intros [H|H].
  - rewrite H. destruct (py_int (fetch_text typed_fetch w)); reflexivity.
  - destruct (int_value (fetch_text typed_fetch w));
      [|destruct (py_int (fetch_text typed_fetch w)); reflexivity].
    rewrite H. destruct (py_int (process_text typed_process w)); reflexivity.
Qed.

Lemma configure_threads_numbers (f p : Z) :
  int_value (fetch_text typed_fetch w) = Some f -> int_value (process_text typed_process w) = Some p ->
  configure_threads typed_fetch typed_process w
  = (Returned true,
     with_self (set_process_workers (Z.max 1 (Z.min p 20)))
       (with_self (set_fetch_workers (Z.max 1 (Z.min f 50))) w)).
Proof.
  intros Hf Hp.
  unfold configure_threads, try_except, bind, get_self, int.
  fold (fetch_text typed_fetch w) (process_text typed_process w). rewrite Hf, Hp. reflexivity.
Qed.

End ThreadDialog.

(** C6.  Whatever two integers [int()] reads at the prompts of
    [configure_threads] (text of at most 4300 digits; the current counts,
    which are printed as defaults, being printable), the dialog succeeds and
    leaves a fetch worker count in [1, 50] and a process worker count in
    [1, 20]: a value below 1 becomes 1, a value above the maximum becomes the
    maximum (50 for fetch, 20 for process), and a value already in the
    interval is kept. *)
Theorem configure_threads_clamps
  (typed_fetch typed_process : string) (w : world) (f p : Z) :
  printable (fetch_workers (self w)) ->
  printable (process_workers (self w)) ->
  int_value (fetch_text typed_fetch w) = Some f ->
  int_value (process_text typed_process w) = Some p ->
  let r := configure_threads typed_fetch typed_process w in
  fst r = Returned true
  /\ 1 <= fetch_workers (self (snd r)) <= 50
  /\ 1 <= process_workers (self (snd r)) <= 20
  /\ (f < 1 -> fetch_workers (self (snd r)) = 1)
  /\ (50 < f -> fetch_workers (self (snd r)) = 50)
  /\ (1 <= f <= 50 -> fetch_workers (self (snd r)) = f)
  /\ (p < 1 -> process_workers (self (snd r)) = 1)
  /\ (20 < p -> process_workers (self (snd r)) = 20)
  /\ (1 <= p <= 20 -> process_workers (self (snd r)) = p).
Proof.
  intros _ _ Hf Hp r. subst r.
  rewrite (configure_threads_numbers _ _ _ f p Hf Hp). cbn.
  repeat split; lia.
Qed.

(** C6, at the inputs 0 and 100 on a fresh validator: the counts become 1
    and 20. *)
Lemma configure_threads_clamps_witness :
  int_value "0" = Some 0 /\ int_value "100" = Some 100
  /\ fetch_workers (self (snd (configure_threads "0" "100" Scenario.fresh))) = 1
  /\ process_workers (self (snd (configure_threads "0" "100" Scenario.fresh))) = 20.
Proof.
  split; [reflexivity|]. split; [reflexivity|].
  assert (P1 : printable (fetch_workers (self Scenario.fresh)))
    by (vm_compute; discriminate).
  assert (P2 : printable (process_workers (self Scenario.fresh)))
    by (vm_compute; discriminate).
  destruct (configure_threads_clamps "0" "100" Scenario.fresh 0 100
              P1 P2 eq_refl eq_refl) as (_ & _ & _ & Hf & _ & _ & _ & Hp & _).
  split; [apply Hf | apply Hp]; lia.
Defined.

(** A number of 4301 digits is beyond what [int()] reads: the dialog answers
    [False] and keeps the counts. *)
Example configure_threads_digit_limit :
  configure_threads Cases.nines_4301 "5" Scenario.fresh
  = (Returned false, Scenario.fresh).
Proof. vm_compute. reflexivity. Qed.

(** C3, as the source has it.  When the two lines read as integers [s] and
    [e] with [s >= e] (equal bounds included), or with a bound that is not
    negative and does not have exactly 16 decimal digits, [set_custom_range]
    raises nothing: it returns [False] to its caller and leaves the world as
    it was, so the range is unchanged and no run is started. *)
Theorem set_custom_range_rejects_bad_bounds
  (typed_start typed_end : string) (w : world) (s e : Z) :
  py_int (start_text typed_start w) = Some s ->
  py_int (end_text typed_end w) = Some e ->
  s >= e
  \/ (0 <= s /\ ~ (1000000000000000 <= s < 10000000000000000))
  \/ (0 <= e /\ ~ (1000000000000000 <= e < 10000000000000000)) ->
  set_custom_range typed_start typed_end w = (Returned false, w).
Proof.
  intros Ps Pe Hbad.
  destruct (int_value (start_text typed_start w)) as [s0|] eqn:Hs;
    [|now apply set_custom_range_not_a_number; left].
  destruct (int_value (end_text typed_end w)) as [e0|] eqn:He;
    [|now apply set_custom_range_not_a_number; right].
  assert (s0 = s) by (apply int_value_some in Hs; congruence).
  assert (e0 = e) by (apply int_value_some in He; congruence).
  subst s0 e0.
  rewrite (set_custom_range_numbers _ _ _ s e Hs He).
  destruct (len (str s) =? 16) eqn:Ls; [|reflexivity].
  destruct (len (str e) =? 16) eqn:Le; [|reflexivity].
  cbn. apply Z.eqb_eq in Ls, Le.
  destruct Hbad as [Hge|[[Hs0 Hsw]|[He0 Hew]]].
  - destruct (s >=? e) eqn:G; [reflexivity|]. rewrite Z.geb_leb in G.
    apply Z.leb_gt in G. lia.
  - apply StrFacts.str_len_16 in Ls; [contradiction|assumption].
  - apply StrFacts.str_len_16 in Le; [contradiction|assumption].
Qed.

(** C3, at the bounds 1000000000000009 and 1000000000000003 (start above
    end): the answer is [False] and the validator keeps its range. *)
Lemma set_custom_range_rejects_bad_bounds_witness :
  set_custom_range "1000000000000009" "1000000000000003" Scenario.fresh
  = (Returned false, Scenario.fresh).
Proof.
  apply (set_custom_range_rejects_bad_bounds
           "1000000000000009" "1000000000000003" Scenario.fresh
           1000000000000009 1000000000000003).
  - reflexivity.
  - reflexivity.
  - left. lia.
Defined.

(** C3 as worded: with equal bounds no exception is raised at all; the
    dialog returns [False]. *)
Lemma set_custom_range_equal_bounds_not_raised :
  fst (set_custom_range "1000000000000005" "1000000000000005" Scenario.fresh)
  = Returned false
  /\ ~ (exists e : exception,
          fst (set_custom_range "1000000000000005" "1000000000000005" Scenario.fresh)
          = Raised e).
Proof.
  split; [reflexivity|]. intros [e He]. vm_compute in He. discriminate He.
Qed.

(** The width test counts the characters of [str(bound)], sign included: two
    negative bounds of 15 digits pass it, and the range is set to them. *)
Example set_custom_range_negative_15_digits :
  set_custom_range "-999999999999999" "-100000000000000" Scenario.fresh
  = (Returned true,
     with_self (set_range_end (-100000000000000))
       (with_self (set_range_start (-999999999999999)) Scenario.fresh)).
Proof. reflexivity. Qed.

(** C9.  Both dialogs answer [True] or [False] and never raise.  An answer
    [False] leaves the whole world, hence the range and both worker counts,
    as it was; text that is not a number, a bound whose [str] is not 16
    characters long (for a bound that is not negative: a bound outside
    [10^15, 10^16), see [StrFacts.str_len_16]), and [start >= end] are
    answered [False]; so is text that is not a number at either thread
    prompt.  An answer [True] sets both bounds (respectively both worker
    counts) and nothing else. *)
Theorem configuration_updates_atomic
  (typed_start typed_end typed_fetch typed_process : string) (w : world) :
  let range := set_custom_range typed_start typed_end w in
  let threads := configure_threads typed_fetch typed_process w in
  (* the range dialog *)
  (fst range = Returned false \/ fst range = Returned true)
  /\ (fst range = Returned false -> snd range = w)
  /\ (py_int (start_text typed_start w) = None \/ py_int (end_text typed_end w) = None ->
      fst range = Returned false)
  /\ (forall s e, py_int (start_text typed_start w) = Some s -> py_int (end_text typed_end w) = Some e ->
      len (str s) <> 16 \/ len (str e) <> 16 \/ s >= e ->
      fst range = Returned false)
  /\ (fst range = Returned true ->
      exists s e, py_int (start_text typed_start w) = Some s /\ py_int (end_text typed_end w) = Some e
        /\ snd range = with_self (set_range_end e) (with_self (set_range_start s) w)
        /\ configuration (self (snd range))
           = (s, e, fetch_workers (self w), process_workers (self w)))
  (* the thread dialog *)
  /\ (fst threads = Returned false \/ fst threads = Returned true)
  /\ (fst threads = Returned false -> snd threads = w)
  /\ (py_int (fetch_text typed_fetch w) = None \/ py_int (process_text typed_process w) = None ->
      fst threads = Returned false)
  /\ (fst threads = Returned true ->
      exists f p, py_int (fetch_text typed_fetch w) = Some f /\ py_int (process_text typed_process w) = Some p
        /\ snd threads
           = with_self (set_process_workers (Z.max 1 (Z.min p 20)))
               (with_self (set_fetch_workers (Z.max 1 (Z.min f 50))) w)
        /\ configuration (self (snd threads))
           = (range_start (self w), range_end (self w),
              Z.max 1 (Z.min f 50), Z.max 1 (Z.min p 20))).
Proof.
  intros range threads.
  assert (Hrange :
    (fst range = Returned false \/ fst range = Returned true)
    /\ (fst range = Returned false -> snd range = w)
    /\ (py_int (start_text typed_start w) = None \/ py_int (end_text typed_end w) = None ->
        fst range = Returned false)
    /\ (forall s e, py_int (start_text typed_start w) = Some s -> py_int (end_text typed_end w) = Some e ->
        len (str s) <> 16 \/ len (str e) <> 16 \/ s >= e ->
        fst range = Returned false)
    /\ (fst range = Returned true ->
        exists s e, py_int (start_text typed_start w) = Some s /\ py_int (end_text typed_end w) = Some e
          /\ snd range = with_self (set_range_end e) (with_self (set_range_start s) w)
          /\ configuration (self (snd range))
             = (s, e, fetch_workers (self w), process_workers (self w)))).
  { subst range.
    destruct (int_value (start_text typed_start w)) as [s|] eqn:Hs;
      [destruct (int_value (end_text typed_end w)) as [e|] eqn:He|].
    - pose proof (int_value_some _ _ Hs) as Ps.
      pose proof (int_value_some _ _ He) as Pe.
      rewrite (set_custom_range_numbers typed_start typed_end w s e Hs He).
      destruct (len (str s) =? 16) eqn:Ls;
        [destruct (len (str e) =? 16) eqn:Le;
           [destruct (s >=? e) eqn:G|]|]; cbn.
      + repeat split; auto; try discriminate.
      + apply Z.eqb_eq in Ls, Le. rewrite Z.geb_leb in G. apply Z.leb_gt in G.
        repeat split; auto; try discriminate.
        * intros [H|H]; congruence.
        * intros s' e' Hs' He'.
          assert (s' = s) by congruence. assert (e' = e) by congruence.
          subst s' e'. lia.
        * intros _. exists s, e. repeat split; assumption.
      + repeat split; auto; try discriminate.
      + repeat split; auto; try discriminate.
    - rewrite (set_custom_range_not_a_number typed_start typed_end w) by (right; exact He).
      cbn. repeat split; auto; try discriminate.
    - rewrite (set_custom_range_not_a_number typed_start typed_end w) by (left; exact Hs).
      cbn. repeat split; auto; try discriminate. }
  destruct Hrange as (R1 & R2 & R3 & R4 & R5).
  repeat (split; [assumption|]).
  subst threads.
  destruct (int_value (fetch_text typed_fetch w)) as [f|] eqn:Hf;
    [destruct (int_value (process_text typed_process w)) as [p|] eqn:Hp|].
  - pose proof (int_value_some _ _ Hf) as Pf.
    pose proof (int_value_some _ _ Hp) as Pp.
    rewrite (configure_threads_numbers typed_fetch typed_process w f p Hf Hp). cbn.
    repeat split; auto; try discriminate.
    + intros [H|H]; congruence.
    + intros _. exists f, p. repeat split; assumption.
  - rewrite (configure_threads_not_a_number typed_fetch typed_process w) by (right; exact Hp).
    cbn. repeat split; auto; try discriminate.
  - rewrite (configure_threads_not_a_number typed_fetch typed_process w) by (left; exact Hf).
    cbn. repeat split; auto; try discriminate.
Qed.

(** C9, on a validator that was used before: letters at the range prompts
    and at the thread prompts are answered [False] and change nothing. *)
Lemma configuration_updates_atomic_witness :
  snd (set_custom_range "10000000000000zz" "" Scenario.used) = Scenario.used
  /\ snd (configure_threads "" "many" Scenario.used) = Scenario.used.
Proof.
  destruct (configuration_updates_atomic
              "10000000000000zz" "" "" "many" Scenario.used)
    as (_ & R & _ & _ & _ & _ & T & _).
  split; [apply R | apply T]; reflexivity.
Defined.

(** C2.  What one processed outcome does, by status code.  Status 200, the
    append to the output file going through: exactly the line of the account
    is appended and [valid_count] grows by one, the other counters stay.
    Status 404: nothing changes at all.  Status 429: [rate_limit_count] grows
    by one, the other counters and the file stay.  Any other status: no
    counter changes and the file stays. *)
Theorem process_response_by_status
  (io : io_result) (account : string) (sc : Z) (hdrs : option headers) (w : world) :
  let w' := snd (process_response io account sc hdrs w) in
  (sc = 200 -> io = IoOk ->
     valid_accounts w' = valid_accounts w ++ account ++ newline
     /\ counters (self w')
        = (checked_count (self w), valid_count (self w) + 1,
           error_count (self w), rate_limit_count (self w)))
  /\ (sc = 404 -> w' = w)
  /\ (sc = 429 ->
        valid_accounts w' = valid_accounts w
        /\ counters (self w')
           = (checked_count (self w), valid_count (self w),
              error_count (self w), rate_limit_count (self w) + 1))
  /\ (sc <> 200 -> sc <> 404 -> sc <> 429 ->
        valid_accounts w' = valid_accounts w /\ self w' = self w).
Proof.
  intros w'. subst w'. split; [|split; [|split]].
  - intros -> ->. split; reflexivity.
  - intros ->. reflexivity.
  - intros ->. split; reflexivity.
  - intros H200 H404 H429.
    rewrite process_response_other by assumption. split; reflexivity.
Qed.

(** C2, for the account 1000000000000000 answered with status 200 on a
    validator that already holds counts and one line. *)
Lemma process_response_by_status_witness :
  valid_accounts
    (snd (process_response IoOk "1000000000000000" 200 None Scenario.used))
  = "1000000000000123" ++ newline ++ "1000000000000000" ++ newline
  /\ counters
       (self (snd (process_response IoOk "1000000000000000" 200 None Scenario.used)))
     = (7, 2, 2, 3).
Proof.
  destruct (process_response_by_status IoOk "1000000000000000" 200 None
              Scenario.used) as (H200 & _).
  destruct (H200 eq_refl eq_refl) as [Hfile Hcount].
  split; [exact Hfile | exact Hcount].
Defined.

(** C7.  When the [try] body of [process_response] raises an exception (in
    the world [w1]), the task still returns normally: the exception is
    swallowed, [error_count] grows by one, one error record is logged, and
    neither another counter nor the output file changes. *)
Theorem process_response_swallows
  (io : io_result) (account : string) (sc : Z) (hdrs : option headers)
  (w w1 : world) (e : exception) :
  process_response_try io account sc w = (Raised e, w1) ->
  process_response io account sc hdrs w
  = (Returned tt, after_processing_error account e w)
  /\ counters (self (snd (process_response io account sc hdrs w)))
     = (checked_count (self w), valid_count (self w),
        error_count (self w) + 1, rate_limit_count (self w))
  /\ valid_accounts (snd (process_response io account sc hdrs w))
     = valid_accounts w.
Proof.
  intros Hraised.
  destruct (process_response_try_raised account w io sc e w1 Hraised)
    as (-> & -> & msg & -> & ->).
  rewrite process_response_200_io_error. repeat split.
Qed.

(** C7, for a status 200 whose append meets a full disk. *)
Lemma process_response_swallows_witness :
  process_response (IoError "No space left on device") "1000000000000000" 200
    None Scenario.used
  = (Returned tt,
     after_processing_error "1000000000000000"
       (Exc OSError "No space left on device") Scenario.used).
Proof.
  apply (process_response_swallows (IoError "No space left on device")
           "1000000000000000" 200 None Scenario.used Scenario.used
           (Exc OSError "No space left on device")).
  reflexivity.
Defined.

(** ** Statistics *)

Section Division.

Lemma truediv_defined (a b : Q) :
  Qeq_bool b 0 = false -> truediv a b = Returned (a / b)%Q.
Proof. unfold truediv. now intros ->. Qed.

Lemma Qpositive_nonzero (b : Q) : Qpositive b = true -> Qeq_bool b 0 = false.
Proof.
  unfold Qpositive. intros H. apply negb_true_iff in H.
  destruct (Qeq_bool b 0) eqn:E; [|reflexivity].
  apply Qeq_bool_iff in E.
  assert (Hle : Qle_bool b 0 = true) by (apply Qle_bool_iff; rewrite E; apply Qle_refl).
  congruence.
Qed.

Lemma Qpositive_false (b : Q) : (b <= 0)%Q -> Qpositive b = false.
Proof.
  intros H. unfold Qpositive. apply negb_false_iff. now apply Qle_bool_iff.
Qed.

Lemma inject_Z_nonzero (z : Z) : z <> 0 -> Qeq_bool (inject_Z z) 0 = false.
Proof.
  intros Hz. destruct (Qeq_bool (inject_Z z) 0) eqn:E; [|reflexivity].
  apply Qeq_bool_iff in E. unfold Qeq in E. simpl in E. lia.
Qed.

End Division.

Section Statistics.

Variable now : Q.
Variable w : world.

(** The statistics panel is always produced, and reading it changes
    nothing. *)
Lemma create_stats_table_returns :
  exists p, create_stats_table now w = (Returned p, w)
    /\ (forall t0, start_time (self w) = Some t0 -> Qeq_bool t0 0 = false ->
        exists rate,
          p = Statistics (checked_count (self w)) (valid_count (self w))
                (error_count (self w)) (rate_limit_count (self w))
                (now - t0)%Q rate
          /\ ((now - t0 <= 0)%Q -> rate = 0%Q)
          /\ (Qpositive (now - t0) = true ->
              rate = (inject_Z (checked_count (self w)) / (now - t0))%Q)).
Proof.
  unfold create_stats_table, bind, get_self.
  destruct (start_time (self w)) as [t0|] eqn:Ht; cbn [not_started].
  - destruct (Qeq_bool t0 0) eqn:Z0.
    + eexists; split; [reflexivity|]. intros t [= <-] H. congruence.
    + cbn. destruct (Qpositive (now - t0)) eqn:P.
      * unfold lift. rewrite truediv_defined by now apply Qpositive_nonzero.
        eexists; split; [reflexivity|]. intros t [= <-] _.
        eexists; split; [reflexivity|]. split; [|reflexivity].
        intros Hle. apply Qpositive_false in Hle. congruence.
      * cbn. eexists; split; [reflexivity|]. intros t [= <-] _.
        eexists; split; [reflexivity|]. split; [reflexivity|intros H; congruence].
  - eexists; split; [reflexivity|]. discriminate.
Qed.

Variable total_accounts : Z.

(** The [finally] block of a started run always produces its table. *)
Lemma final_results_returns (t0 : Q) :
  start_time (self w) = Some t0 ->
  exists t, final_results now total_accounts w = (Returned t, after_final_results w)
    /\ counters (self w)
       = (res_checked t, res_valid t, res_errors t, res_rate_limits t)
    /\ res_elapsed t = (now - t0)%Q
    /\ (total_accounts <= 0 -> res_checked_pct t = 0%Q)
    /\ (checked_count (self w) <= 0 -> res_valid_pct t = 0%Q)
    /\ ((now - t0 <= 0)%Q -> res_rate t = None).
Proof.
  intros Ht.
  unfold final_results, bind, get_self, update, logger, ret, lift. cbn.
  rewrite Ht. cbn.
  destruct (total_accounts >? 0) eqn:Tot.
  - rewrite truediv_defined by (apply inject_Z_nonzero; lia).
    destruct (checked_count (self w) >? 0) eqn:Chk.
    + rewrite truediv_defined by (apply inject_Z_nonzero; lia).
      destruct (Qpositive (now - t0)) eqn:P.
      * rewrite truediv_defined by now apply Qpositive_nonzero.
        eexists; split; [reflexivity|]. cbn. repeat split; try lia.
        intros Hle. apply Qpositive_false in Hle. congruence.
      * eexists; split; [reflexivity|]. cbn. repeat split; lia.
    + destruct (Qpositive (now - t0)) eqn:P.
      * rewrite truediv_defined by now apply Qpositive_nonzero.
        eexists; split; [reflexivity|]. cbn. repeat split; try lia.
        intros Hle. apply Qpositive_false in Hle. congruence.
      * eexists; split; [reflexivity|]. cbn. repeat split; lia.
  - destruct (checked_count (self w) >? 0) eqn:Chk.
    + rewrite truediv_defined by (apply inject_Z_nonzero; lia).
      destruct (Qpositive (now - t0)) eqn:P.
      * rewrite truediv_defined by now apply Qpositive_nonzero.
        eexists; split; [reflexivity|]. cbn. repeat split; try lia.
        intros Hle. apply Qpositive_false in Hle. congruence.
      * eexists; split; [reflexivity|]. cbn. repeat split; lia.
    + destruct (Qpositive (now - t0)) eqn:P.
      * rewrite truediv_defined by now apply Qpositive_nonzero.
        eexists; split; [reflexivity|]. cbn. repeat split; try lia.
        intros Hle. apply Qpositive_false in Hle. congruence.
      * eexists; split; [reflexivity|]. cbn. repeat split; lia.
Qed.

End Statistics.

(** ** The loop over the completed fetches *)

Section Strings.

Lemma append_assoc (a b c : string) : (a ++ b) ++ c = a ++ (b ++ c).
Proof. induction a as [|ch a IH]; cbn; [reflexivity | now rewrite IH]. Qed.

Lemma append_empty_r (a : string) : a ++ "" = a.
Proof. induction a as [|ch a IH]; cbn; [reflexivity | now rewrite IH]. Qed.

End Strings.

Section Setters.

Variable v : AccountValidator.

Lemma set_error_count_same : set_error_count (error_count v + 0) v = v.
Proof. destruct v; unfold set_error_count; cbn. now rewrite Z.add_0_r. Qed.

Lemma set_error_count_twice (n m : Z) :
  set_error_count n (set_error_count m v) = set_error_count n v.
Proof. reflexivity. Qed.

End Setters.

Section Drain.

Variable x : run_input.
Variable account : string.
Variable w : world.

(** An answered probe is checked, and its outcome goes to the process task. *)
Lemma drain_answered (sc : Z) (hdrs : headers) :
  network x account = Response sc hdrs ->
  drain x account w
  = (Returned tt,
     snd (process_response (append_io x account) account sc (Some hdrs)
            (with_self (set_checked_count (checked_count (self w) + 1)) w))).
Proof.
  intros H. unfold drain, try_except, bind. rewrite H.
  rewrite fetch_response_answered. reflexivity.
Qed.

(** A probe that ends in a transport error is counted by the fetch task;
    nothing is handed to the process task. *)
Lemma drain_failed (e : exception) :
  network x account = NetRaises e -> exc_class_of e = RequestException ->
  drain x account w
  = (Returned tt,
     {| self := set_error_count (error_count (self w) + 1) (self w);
        valid_accounts := valid_accounts w;
        logged := logged w
                  ++ [(ERROR, "Error fetching account " ++ account ++ ": " ++ exc_text e)] |}).
Proof.
  intros H He. unfold drain, try_except, bind. rewrite H.
  rewrite fetch_response_failed by assumption. reflexivity.
Qed.

(** A fetch task that raised is counted by the loop itself. *)
Lemma drain_crashed (e : exception) :
  network x account = NetRaises e -> exc_class_of e <> RequestException ->
  drain x account w
  = (Returned tt,
     {| self := set_error_count (error_count (self w) + 1) (self w);
        valid_accounts := valid_accounts w;
        logged := logged w ++ [(ERROR, "Future processing error: " ++ exc_text e)] |}).
Proof.
  intros H He. unfold drain, try_except, bind. rewrite H.
  rewrite fetch_response_crashed by assumption. reflexivity.
Qed.

Lemma request_exception_dec (e : exception) :
  {exc_class_of e = RequestException} + {exc_class_of e <> RequestException}.
Proof. destruct (exc_class_of e); (now left) || (right; discriminate). Qed.

(** The body of the loop never raises. *)
Lemma drain_returns : fst (drain x account w) = Returned tt.
Proof.
  destruct (network x account) as [sc hdrs|e] eqn:N.
  - now rewrite (drain_answered sc hdrs).
  - destruct (request_exception_dec e).
    + now rewrite (drain_failed e).
    + now rewrite (drain_crashed e).
Qed.

(** What one turn of the loop adds to the output file: the line of the
    account when it is saved, nothing otherwise. *)
Lemma drain_file :
  valid_accounts (snd (drain x account w))
  = valid_accounts w ++ (if saved x account then account ++ newline else "").
Proof.
  unfold saved.
  destruct (network x account) as [sc hdrs|e] eqn:N.
  - rewrite (drain_answered sc hdrs N). cbn [snd].
    destruct (Z.eq_dec sc 200) as [->|H200].
    + destruct (append_io x account); cbn;
        [reflexivity | now rewrite append_empty_r].
    + assert (E : (sc =? 200) = false) by now apply Z.eqb_neq.
      replace (match append_io x account with IoOk => sc =? 200 | IoError _ => false end)
        with false by (destruct (append_io x account); congruence).
      rewrite append_empty_r.
      destruct (Z.eq_dec sc 429) as [->|H429]; [reflexivity|].
      destruct (Z.eq_dec sc 404) as [->|H404]; [reflexivity|].
      now rewrite process_response_other.
  - rewrite append_empty_r. destruct (request_exception_dec e).
    + now rewrite (drain_failed e).
    + now rewrite (drain_crashed e).
Qed.

(** One turn of the loop changes counters only. *)
Lemma drain_settings :
  settings (self (snd (drain x account w))) = settings (self w).
Proof.
  destruct (network x account) as [sc hdrs|e] eqn:N.
  - rewrite (drain_answered sc hdrs N). cbn [snd].
    destruct (Z.eq_dec sc 200) as [->|H200].
    + destruct (append_io x account); reflexivity.
    + destruct (Z.eq_dec sc 429) as [->|H429]; [reflexivity|].
      destruct (Z.eq_dec sc 404) as [->|H404]; [reflexivity|].
      now rewrite process_response_other.
  - destruct (request_exception_dec e).
    + now rewrite (drain_failed e).
    + now rewrite (drain_crashed e).
Qed.

End Drain.

Section Loop.

Variable x : run_input.

Lemma for_each_drain_cons (a : string) (l : list string) (w : world) :
  for_each (a :: l) (drain x) w = for_each l (drain x) (snd (drain x a w)).
Proof.
  cbn [for_each]. unfold bind.
  pose proof (drain_returns x a w) as H.
  destruct (drain x a w) as [r w1]. cbn in H. subst r. reflexivity.
Qed.

(** The loop runs to its end. *)
Lemma for_each_drain_returns (l : list string) : forall w,
  fst (for_each l (drain x) w) = Returned tt.
Proof.
  induction l as [|a l IH]; intros w; [reflexivity|].
  rewrite for_each_drain_cons. apply IH.
Qed.

Lemma for_each_drain_settings (l : list string) : forall w,
  settings (self (snd (for_each l (drain x) w))) = settings (self w).
Proof.
  induction l as [|a l IH]; intros w; [reflexivity|].
  rewrite for_each_drain_cons, IH. apply drain_settings.
Qed.

(** The loop appends the lines of the saved accounts, in the order of
    completion, and nothing else. *)
Lemma for_each_drain_file (l : list string) : forall w,
  valid_accounts (snd (for_each l (drain x) w))
  = valid_accounts w ++ lines (filter (saved x) l).
Proof.
  induction l as [|a l IH]; intros w.
  - cbn. now rewrite append_empty_r.
  - rewrite for_each_drain_cons, IH, drain_file. cbn [filter].
    destruct (saved x a); cbn [lines].
    + now rewrite !append_assoc.
    + now rewrite append_empty_r.
Qed.

(** When every probe of the loop ends in a transport error, the loop adds
    the number of probes to [error_count] and changes nothing else of the
    validator, nor the output file. *)
Lemma for_each_drain_all_failed (l : list string) :
  (forall a, In a l -> transport_error (network x a)) ->
  forall w,
    self (snd (for_each l (drain x) w))
    = set_error_count (error_count (self w) + Z.of_nat (List.length l)) (self w)
    /\ valid_accounts (snd (for_each l (drain x) w)) = valid_accounts w.
Proof.
  induction l as [|a l IH]; intros Hall w.
  - cbn. split; [|reflexivity]. now rewrite set_error_count_same.
  - rewrite for_each_drain_cons.
    destruct (Hall a (or_introl eq_refl)) as (e & Hn & He).
    rewrite (drain_failed x a w e Hn He). cbn [snd].
    destruct (IH (fun b Hb => Hall b (or_intror Hb))
                {| self := set_error_count (error_count (self w) + 1) (self w);
                   valid_accounts := valid_accounts w;
                   logged := logged w
                     ++ [(ERROR, "Error fetching account " ++ a ++ ": " ++ exc_text e)] |})
      as [Hs Hf].
    rewrite Hs, Hf. cbn [self valid_accounts]. split; [|reflexivity].
    unfold set_error_count. cbn. f_equal. lia.
Qed.

End Loop.

(** ** The generator of account numbers *)

Section Range.

Lemma range_length (a b : Z) : List.length (range a b) = Z.to_nat (b - a).
Proof. unfold range. now rewrite length_map, length_seq. Qed.

Lemma range_nth (a b k : Z) :
  0 <= k < b - a -> nth_error (range a b) (Z.to_nat k) = Some (a + k).
Proof.
  intros Hk. unfold range.
  rewrite nth_error_map, nth_error_seq.
  destruct (Nat.ltb_spec (Z.to_nat k) (Z.to_nat (b - a))) as [_|H]; [|lia].
  cbn. f_equal. lia.
Qed.

Lemma range_sorted_from (a : Z) (n : nat) : forall s : nat,
  StronglySorted Z.lt (map (fun k => a + Z.of_nat k) (seq s n)).
Proof.
  induction n as [|n IH]; intros s; cbn; constructor.
  - apply IH.
  - apply Forall_forall. intros z Hz.
    apply in_map_iff in Hz as (k & <- & Hk). apply in_seq in Hk. lia.
Qed.

(** [range(a, b)] is strictly increasing. *)
Lemma range_sorted (a b : Z) : StronglySorted Z.lt (range a b).
Proof. apply range_sorted_from. Qed.

Lemma range_bounds (a b z : Z) : In z (range a b) -> a <= z < b.
Proof.
  unfold range. intros H. apply in_map_iff in H as (k & <- & Hk).
  apply in_seq in Hk. lia.
Qed.

Lemma StronglySorted_map {A B} (R : A -> A -> Prop) (R' : B -> B -> Prop)
  (f : A -> B) (l : list A) :
  (forall a b, R a b -> R' (f a) (f b)) ->
  StronglySorted R l -> StronglySorted R' (map f l).
Proof.
  intros Hf. induction 1 as [|a l Hs IH Ha]; cbn; constructor.
  - exact IH.
  - apply Forall_map. revert Ha. apply Forall_impl. intros b. apply Hf.
Qed.

Lemma str_increasing (m n : Z) : m < n -> candidate_lt (str m) (str n).
Proof.
  intros H. exists m, n. now rewrite !IntStr.py_int_str.
Qed.

Variable v : AccountValidator.

Lemma account_numbers_length :
  List.length (account_numbers v) = Z.to_nat (range_end v - range_start v + 1).
Proof.
  unfold account_numbers. rewrite length_map, range_length. f_equal. lia.
Qed.

Lemma account_numbers_NoDup : NoDup (account_numbers v).
Proof.
  unfold account_numbers, range. rewrite map_map.
  apply Injective_map_NoDup; [|apply seq_NoDup].
  intros i j H. apply StrFacts.str_inj in H. lia.
Qed.

Lemma account_numbers_sorted : StronglySorted candidate_lt (account_numbers v).
Proof.
  unfold account_numbers.
  apply (StronglySorted_map Z.lt); [exact str_increasing | apply range_sorted].
Qed.

Lemma account_numbers_nth (k : Z) :
  0 <= k <= range_end v - range_start v ->
  nth_error (account_numbers v) (Z.to_nat k) = Some (str (range_start v + k)).
Proof.
  intros Hk. unfold account_numbers.
  rewrite nth_error_map, range_nth by lia. reflexivity.
Qed.

(** Between 16-digit bounds every candidate is a string of 16 characters. *)
Lemma account_numbers_width :
  1000000000000000 <= range_start v -> range_end v < 10000000000000000 ->
  Forall (fun a => len a = 16) (account_numbers v).
Proof.
  intros Hlo Hhi. unfold account_numbers. apply Forall_map, Forall_forall.
  intros z Hz. apply range_bounds in Hz.
  apply StrFacts.str_len_16; lia.
Qed.

End Range.

(** C4.  For bounds with [start < end], the generator yields
    [end - start + 1] candidates, no two of them equal, in strictly ascending
    order of the integers they denote: the candidate at position [k] is
    [str(start + k)].  It is a function of the two bounds only, so generating
    again from the same bounds gives the same sequence.  (Between two bounds
    of 16 digits, every candidate has 16 characters.) *)
Theorem account_numbers_enumerates (v : AccountValidator) :
  range_start v < range_end v ->
  Z.of_nat (List.length (account_numbers v)) = range_end v - range_start v + 1
  /\ NoDup (account_numbers v)
  /\ StronglySorted candidate_lt (account_numbers v)
  /\ (forall k, 0 <= k <= range_end v - range_start v ->
      nth_error (account_numbers v) (Z.to_nat k) = Some (str (range_start v + k)))
  /\ (forall v', range_start v' = range_start v -> range_end v' = range_end v ->
      account_numbers v' = account_numbers v)
  /\ (1000000000000000 <= range_start v -> range_end v < 10000000000000000 ->
      Forall (fun a => len a = 16) (account_numbers v)).
Proof.
  intros Hlt. repeat split.
  - rewrite account_numbers_length. lia.
  - apply account_numbers_NoDup.
  - apply account_numbers_sorted.
  - apply account_numbers_nth.
  - intros v' Hs He. unfold account_numbers. now rewrite Hs, He.
  - apply account_numbers_width.
Qed.

(** C4, on the range 1000000000000000 .. 1000000000000004: five
    candidates. *)
Lemma account_numbers_enumerates_witness :
  Z.of_nat (List.length (account_numbers (self Scenario.five))) = 5
  /\ account_numbers (self Scenario.five)
     = ["1000000000000000"; "1000000000000001"; "1000000000000002";
        "1000000000000003"; "1000000000000004"].
Proof.
  split; [|reflexivity].
  assert (H : range_start (self Scenario.five) < range_end (self Scenario.five))
    by (cbn; lia).
  destruct (account_numbers_enumerates (self Scenario.five) H) as (Hlen & _).
  exact Hlen.
Defined.

(** ** What the pipeline reads *)

Section ReadsOnlySelf.

Context {A B : Type}.

Lemma ros_ret (a : A) : reads_only_self (ret a).
Proof. intros w w' H. now split. Qed.

Lemma ros_raise (e : exception) : reads_only_self (@raise A e).
Proof. intros w w' H. now split. Qed.

Lemma ros_lift (o : outcome A) : reads_only_self (lift o).
Proof. intros w w' H. now split. Qed.

Lemma ros_bind (c : M A) (k : A -> M B) :
  reads_only_self c -> (forall a, reads_only_self (k a)) ->
  reads_only_self (bind c k).
Proof.
  intros Hc Hk w w' H. unfold bind.
  destruct (Hc w w' H) as [E1 E2].
  destruct (c w) as [r1 w1], (c w') as [r2 w2]. cbn in E1, E2. subst r2.
  destruct r1 as [a|e]; [now apply Hk | now split].
Qed.

Lemma ros_try_except (body : M A) (handler : exception -> option (M A)) :
  reads_only_self body ->
  (forall e h, handler e = Some h -> reads_only_self h) ->
  reads_only_self (try_except body handler).
Proof.
  intros Hb Hh w w' H. unfold try_except.
  destruct (Hb w w' H) as [E1 E2].
  destruct (body w) as [r1 w1], (body w') as [r2 w2]. cbn in E1, E2. subst r2.
  destruct r1 as [a|e]; [now split|].
  destruct (handler e) as [h|] eqn:Eh; [now apply (Hh e h Eh) | now split].
Qed.

Lemma ros_try_finally (body : M A) (fin : M B) :
  reads_only_self body -> reads_only_self fin ->
  reads_only_self (try_finally body fin).
Proof.
  intros Hb Hf w w' H. unfold try_finally.
  destruct (Hb w w' H) as [E1 E2].
  destruct (body w) as [r1 w1], (body w') as [r2 w2]. cbn in E1, E2. subst r2.
  destruct (Hf w1 w2 E2) as [F1 F2].
  destruct (fin w1) as [s1 v1], (fin w2) as [s2 v2]. cbn in F1, F2. subst s2.
  destruct s1, r1; now split.
Qed.

Lemma ros_submit (task : M A) : reads_only_self task -> reads_only_self (submit task).
Proof.
  intros Ht w w' H. unfold submit. destruct (Ht w w' H) as [_ E]. now split.
Qed.

End ReadsOnlySelf.

Section ReadsOnlySelfStatements.

Lemma ros_for_each {A} (l : list A) (body : A -> M unit) :
  (forall a, reads_only_self (body a)) -> reads_only_self (for_each l body).
Proof.
  intros Hb. induction l as [|a l IH]; cbn [for_each].
  - apply ros_ret.
  - apply ros_bind; [apply Hb | intros _; exact IH].
Qed.

Lemma ros_get_self : reads_only_self get_self.
Proof. intros w w' H. cbn. now rewrite H. Qed.

Lemma ros_update (f : AccountValidator -> AccountValidator) :
  reads_only_self (update f).
Proof. intros w w' H. cbn. now rewrite H. Qed.

Lemma ros_logger (l : level) (msg : string) : reads_only_self (logger l msg).
Proof. intros w w' H. now split. Qed.

Lemma ros_open_write (io : io_result) (truncate : bool) (text : string) :
  reads_only_self (open_write io truncate text).
Proof. intros w w' H. unfold open_write. destruct io; now split. Qed.

Lemma ros_int (s : string) : reads_only_self (int s).
Proof.
  unfold int. destruct (int_value s), (py_int s);
    (apply ros_ret || apply ros_raise).
Qed.

End ReadsOnlySelfStatements.

Ltac ros_step :=
  match goal with
  | |- reads_only_self (bind _ _) => apply ros_bind; [|intros ?]
  | |- reads_only_self (try_except _ _) => apply ros_try_except; [|intros ? ? ?]
  | |- reads_only_self (try_finally _ _) => apply ros_try_finally
  | |- reads_only_self (for_each _ _) => apply ros_for_each; intros ?
  | |- reads_only_self (submit _) => apply ros_submit
  | |- reads_only_self (ret _) => apply ros_ret
  | |- reads_only_self (raise _) => apply ros_raise
  | |- reads_only_self (lift _) => apply ros_lift
  | |- reads_only_self get_self => apply ros_get_self
  | |- reads_only_self (update _) => apply ros_update
  | |- reads_only_self (logger _ _) => apply ros_logger
  | |- reads_only_self (open_write _ _ _) => apply ros_open_write
  | |- reads_only_self (int _) => apply ros_int
  | H : except_Exception _ _ = Some _ |- _ =>
      unfold except_Exception in H; injection H as <-
  | H : except_RequestException _ ?e = Some _ |- _ =>
      unfold except_RequestException in H;
      destruct (exc_class_eqb (exc_class_of e) RequestException);
      [injection H as <- | discriminate H]
  | H : except_ValueError _ ?e = Some _ |- _ =>
      unfold except_ValueError in H;
      destruct (exc_class_eqb (exc_class_of e) ValueError);
      [injection H as <- | discriminate H]
  | |- reads_only_self (if ?b then _ else _) => destruct b
  | |- reads_only_self (match ?o with _ => _ end) => destruct o
  | |- reads_only_self (let '(_, _) := ?p in _) => destruct p
  end.

Section PipelineReads.

Lemma fetch_response_reads_only_self (r : net_result) (account : string) :
  reads_only_self (fetch_response r account).
Proof. unfold fetch_response, requests_get. repeat ros_step. Qed.

Lemma process_response_reads_only_self
  (io : io_result) (account : string) (sc : Z) (hdrs : option headers) :
  reads_only_self (process_response io account sc hdrs).
Proof. unfold process_response, process_response_try. repeat ros_step. Qed.

Lemma drain_reads_only_self (x : run_input) (account : string) :
  reads_only_self (drain x account).
Proof.
  unfold drain. apply ros_try_except.
  - apply ros_bind; [apply fetch_response_reads_only_self|].
    intros [[a sc] hdrs]. destruct sc; [|apply ros_ret].
    apply ros_submit, process_response_reads_only_self.
  - intros e h H. repeat ros_step.
Qed.

Lemma final_results_reads_only_self (now : Q) (total_accounts : Z) :
  reads_only_self (final_results now total_accounts).
Proof. unfold final_results. repeat ros_step. Qed.

Lemma run_validation_reads_only_self (x : run_input) :
  reads_only_self (run_validation x).
Proof.
  unfold run_validation, setup_files.
  repeat first [ apply drain_reads_only_self
               | apply final_results_reads_only_self
               | ros_step ].
Qed.

End PipelineReads.

(** ** A run *)

Section Run.

Variable x : run_input.
Variable w : world.

(** When the output file cannot be opened, the run ends before it starts. *)
Lemma run_validation_setup_failed (msg : string) :
  setup_io x = IoError msg ->
  run_validation x w = (Raised (Exc OSError msg), w).
Proof.
  intros H. unfold run_validation, setup_files, bind, open_write.
  rewrite H. reflexivity.
Qed.

(** A run that is not confirmed has emptied the output file all the same. *)
Lemma run_validation_declined :
  setup_io x = IoOk -> confirmed x = false ->
  run_validation x w
  = (Returned None,
     {| self := self w; valid_accounts := "";
        logged := logged w
                  ++ [(INFO, "Output files initialized. Results will be saved to valid_accounts.txt")] |}).
Proof.
  intros H C. unfold run_validation, setup_files, bind, open_write.
  rewrite H, C. reflexivity.
Qed.

Lemma run_loop_start_time :
  start_time (self (run_loop x w)) = Some (time_start x).
Proof.
  unfold run_loop.
  pose proof (for_each_drain_settings x (completed x w) (run_start x w)) as H.
  unfold settings in H. now injection H.
Qed.

(** A confirmed run: the loop goes from [run_start] to [run_loop], the
    [finally] block prints its table. *)
Lemma run_validation_confirmed :
  setup_io x = IoOk -> confirmed x = true ->
  exists t,
    run_validation x w = (Returned (Some t), after_final_results (run_loop x w))
    /\ counters (self (run_loop x w))
       = (res_checked t, res_valid t, res_errors t, res_rate_limits t).
Proof.
  intros H C.
  destruct (final_results_returns (time_end x) (run_loop x w)
              (range_end (self w) - range_start (self w) + 1)
              (time_start x) run_loop_start_time)
    as (t & Hfin & Hcount & _).
  exists t. split; [|exact Hcount].
  unfold run_validation, setup_files, bind, open_write, logger, update, get_self.
  rewrite H, C. cbn [negb].
  unfold try_finally, try_except.
  change (for_each (as_completed x _) (drain x) _)
    with (for_each (completed x w) (drain x) (run_start x w)).
  pose proof (for_each_drain_returns x (completed x w) (run_start x w)) as Hret.
  destruct (for_each (completed x w) (drain x) (run_start x w)) as [r w5] eqn:E.
  cbn in Hret. subst r.
  assert (Hw : w5 = run_loop x w) by (unfold run_loop; now rewrite E).
  subst w5.
  change (final_results (time_end x) _ (run_loop x w))
    with (final_results (time_end x)
            (range_end (self w) - range_start (self w) + 1) (run_loop x w)).
  rewrite Hfin. reflexivity.
Qed.

(** A run that printed its table was confirmed, with the output file
    opened. *)
Lemma run_validation_table (t : results_table) :
  fst (run_validation x w) = Returned (Some t) ->
  setup_io x = IoOk /\ confirmed x = true.
Proof.
  intros H. destruct (setup_io x) as [|msg] eqn:S.
  - destruct (confirmed x) eqn:C; [now split|].
    rewrite run_validation_declined in H by assumption. discriminate H.
  - rewrite (run_validation_setup_failed msg S) in H. discriminate H.
Qed.

End Run.

(** C1, as the source has it.  A probe that is answered, whatever the
    status, adds one to [checked_count] and changes no other counter; a probe
    that ends in a transport error adds one to [error_count] and leaves
    [checked_count] as it was; neither touches the output file.  So a
    confirmed run over a range of five accounts whose probes all end in a
    transport error, in whatever order they complete, takes counters at zero
    to checked 0, valid 0, errors 5, rate limits 0, with an empty output
    file. *)
Theorem checked_counts_answered_probes :
  (forall (account : string) (w : world) (sc : Z) (hdrs : headers),
     let w' := snd (fetch_response (Response sc hdrs) account w) in
     counters (self w')
     = (checked_count (self w) + 1, valid_count (self w),
        error_count (self w), rate_limit_count (self w))
     /\ valid_accounts w' = valid_accounts w)
  /\ (forall (account : string) (w : world) (r : net_result),
        transport_error r ->
        let w' := snd (fetch_response r account w) in
        counters (self w')
        = (checked_count (self w), valid_count (self w),
           error_count (self w) + 1, rate_limit_count (self w))
        /\ valid_accounts w' = valid_accounts w)
  /\ (forall (x : run_input) (w : world),
        setup_io x = IoOk -> confirmed x = true ->
        range_end (self w) - range_start (self w) + 1 = 5 ->
        Permutation (account_numbers (self w)) (completed x w) ->
        (forall a, transport_error (network x a)) ->
        counters (self w) = (0, 0, 0, 0) ->
        counters (self (snd (run_validation x w))) = (0, 0, 5, 0)
        /\ valid_accounts (snd (run_validation x w)) = "").
Proof.
  split; [|split].
  - intros account w sc hdrs w'. subst w'.
    rewrite fetch_response_answered. split; reflexivity.
  - intros account w r (e & -> & He) w'. subst w'.
    rewrite fetch_response_failed by assumption. split; reflexivity.
  - intros x w S C Hfive Hperm Hall Hzero.
    destruct (run_validation_confirmed x w S C) as (t & -> & _).
    cbn [snd after_final_results self valid_accounts].
    unfold run_loop.
    destruct (for_each_drain_all_failed x (completed x w)
                (fun a _ => Hall a) (run_start x w)) as [Hs Hf].
    assert (Hlen : Z.of_nat (List.length (completed x w)) = 5).
    { rewrite <- (Permutation_length Hperm), account_numbers_length; lia. }
    rewrite Hs, Hf, Hlen. unfold counters in *. cbn.
    injection Hzero as -> -> -> ->. split; reflexivity.
Qed.

(** C1, on the five accounts 1000000000000000 .. 1000000000000004, all of
    whose probes time out. *)
Lemma checked_counts_answered_probes_witness :
  counters (self (snd (run_validation Scenario.all_time_out Scenario.five)))
  = (0, 0, 5, 0)
  /\ valid_accounts (snd (run_validation Scenario.all_time_out Scenario.five)) = "".
Proof.
  destruct checked_counts_answered_probes as (_ & _ & Hrun).
  apply (Hrun Scenario.all_time_out Scenario.five); try reflexivity.
  intros a. exists (Exc RequestException "Read timed out. (read timeout=5)").
  split; reflexivity.
Defined.

(** C1 as worded: the probe of 1000000000000000 that times out does not add
    one to [checked_count], and the run of five such probes ends with
    checked 0, not 5. *)
Lemma timed_out_probe_is_not_checked :
  checked_count
    (self (snd (fetch_response Scenario.timed_out "1000000000000000" Scenario.five)))
  <> checked_count (self Scenario.five) + 1
  /\ checked_count (self (snd (run_validation Scenario.all_time_out Scenario.five)))
     <> 5.
Proof. split; vm_compute; discriminate. Qed.

(** The first end-to-end scenario of the specification: one valid account,
    three that do not exist, one rate limited. *)
Example run_validation_mixed :
  counters (self (snd (run_validation Scenario.mixed Scenario.five)))
  = (5, 1, 0, 1)
  /\ valid_accounts (snd (run_validation Scenario.mixed Scenario.five))
     = "1000000000000000" ++ newline.
Proof. split; reflexivity. Qed.

(** C8.  Whatever the output file held before, a run that took place ends
    with exactly the lines of the accounts saved during it, one account per
    line in the order of completion: the file was emptied when the run
    started.  During the run the fetch task leaves the file alone and the
    process task appends to it, and only the line of an account with status
    200.  The pipeline never reads the file: the table, the exceptions and
    the validator after a run are the same whatever the file held. *)
Theorem output_file_lifecycle (x : run_input) (w : world) :
  (forall t, fst (run_validation x w) = Returned (Some t) ->
     valid_accounts (run_start x w) = ""
     /\ valid_accounts (snd (run_validation x w))
        = lines (filter (saved x) (completed x w)))
  /\ (forall r account w0,
        valid_accounts (snd (fetch_response r account w0)) = valid_accounts w0)
  /\ (forall io account sc hdrs w0,
        valid_accounts (snd (process_response io account sc hdrs w0))
        = valid_accounts w0
          ++ (if (sc =? 200) && io_ok io then account ++ newline else ""))
  /\ (forall w', self w' = self w ->
        fst (run_validation x w') = fst (run_validation x w)
        /\ self (snd (run_validation x w')) = self (snd (run_validation x w))).
Proof.
  split; [|split; [|split]].
  - intros t Ht. split; [reflexivity|].
    destruct (run_validation_table x w t Ht) as [S C].
    destruct (run_validation_confirmed x w S C) as (t' & -> & _).
    cbn [snd after_final_results valid_accounts]. unfold run_loop.
    now rewrite for_each_drain_file.
  - intros r account w0. apply fetch_response_keeps_file.
  - intros io account sc hdrs w0.
    destruct (Z.eq_dec sc 200) as [->|H200].
    + destruct io; cbn; [reflexivity | now rewrite append_empty_r].
    + assert (E : (sc =? 200) = false) by now apply Z.eqb_neq.
      rewrite E. cbn [andb]. rewrite append_empty_r.
      destruct (Z.eq_dec sc 429) as [->|H429]; [reflexivity|].
      destruct (Z.eq_dec sc 404) as [->|H404]; [reflexivity|].
      now rewrite process_response_other.
  - intros w' Hself. apply run_validation_reads_only_self. exact Hself.
Qed.

(** C8, on a world whose output file already holds a line: after the run of
    the first scenario the file holds the one account found valid. *)
Lemma output_file_lifecycle_witness :
  valid_accounts
    (snd (run_validation Scenario.mixed
            (mkWorld (self Scenario.five) ("1000000000000123" ++ newline) [])))
  = "1000000000000000" ++ newline.
Proof.
  destruct (output_file_lifecycle Scenario.mixed
              (mkWorld (self Scenario.five) ("1000000000000123" ++ newline) []))
    as (Hrun & _).
  edestruct Hrun as [_ Hfile]; [vm_compute; reflexivity|].
  rewrite Hfile. reflexivity.
Defined.

(** C10.  The statistics are always produced and never divide by zero.
    The panel ([create_stats_table]) shows rate 0 when the elapsed time is
    not positive.  The table that ends a run ([final_results], for a
    validator that has its start time) shows 0 percent checked when the
    total is not positive, 0 percent valid when nothing was checked, and a
    dash instead of a rate when the elapsed time is not positive. *)
Theorem statistics_division_guarded (now : Q) (total_accounts : Z) (w : world) :
  (exists p, create_stats_table now w = (Returned p, w)
     /\ forall t0, start_time (self w) = Some t0 -> Qeq_bool t0 0 = false ->
        (now - t0 <= 0)%Q ->
        p = Statistics (checked_count (self w)) (valid_count (self w))
              (error_count (self w)) (rate_limit_count (self w))
              (now - t0)%Q 0%Q)
  /\ (forall t0, start_time (self w) = Some t0 ->
      exists t, fst (final_results now total_accounts w) = Returned t
        /\ (total_accounts <= 0 -> res_checked_pct t = 0%Q)
        /\ (checked_count (self w) = 0 -> res_valid_pct t = 0%Q)
        /\ ((now - t0 <= 0)%Q -> res_rate t = None)).
Proof.
  split.
  - destruct (create_stats_table_returns now w) as (p & Hp & Hrate).
    exists p. split; [exact Hp|]. intros t0 Ht Hz Hle.
    destruct (Hrate t0 Ht Hz) as (rate & -> & H0 & _).
    now rewrite (H0 Hle).
  - intros t0 Ht.
    destruct (final_results_returns now w total_accounts t0 Ht)
      as (t & Hfin & _ & _ & Htot & Hchk & Hrate).
    exists t. rewrite Hfin. repeat split; auto. intros Hc. apply Hchk. lia.
Qed.

(** C10, for a validator read at the instant its run started, with nothing
    checked and a total of zero accounts. *)
Lemma statistics_division_guarded_witness :
  create_stats_table 10 Scenario.started
  = (Returned (Statistics 0 0 0 0 (10 - 10)%Q 0%Q), Scenario.started)
  /\ exists t, fst (final_results 10 0 Scenario.started) = Returned t
       /\ res_checked_pct t = 0%Q /\ res_valid_pct t = 0%Q /\ res_rate t = None.
Proof.
  destruct (statistics_division_guarded 10 0 Scenario.started)
    as ((p & Hp & Hrate) & Hfin).
  split.
  - rewrite Hp. f_equal. f_equal.
    apply (Hrate 10%Q eq_refl eq_refl). discriminate.
  - destruct (Hfin 10%Q eq_refl) as (t & Ht & Htot & Hchk & Hr).
    exists t. split; [exact Ht|].
    split; [apply Htot; lia|]. split; [apply Hchk; reflexivity|].
    apply Hr. discriminate.
Defined.

(** * Further properties *)

(** ** Accounting of a run *)

Section Tally.

Variable p : string -> bool.

Lemma tally_nil : tally p [] = 0.
Proof. reflexivity. Qed.

Lemma tally_cons (a : string) (l : list string) :
  tally p (a :: l) = Z.b2z (p a) + tally p l.
Proof.
  unfold tally. cbn [filter]. destruct (p a); cbn [List.length Z.b2z]; lia.
Qed.

Lemma tally_nonneg (l : list string) : 0 <= tally p l.
Proof. unfold tally. lia. Qed.

Lemma tally_le_length (l : list string) : tally p l <= Z.of_nat (List.length l).
Proof. unfold tally. pose proof (filter_length_le p l). lia. Qed.

Lemma tally_permutation (l l' : list string) :
  Permutation l l' -> tally p l = tally p l'.
Proof.
  induction 1 as [|a l l' _ IH|a b l|l l' l'' _ IH1 _ IH2].
  - reflexivity.
  - now rewrite !tally_cons, IH.
  - rewrite !tally_cons. lia.
  - congruence.
Qed.


Lemma tally_none (l : list string) :
  (forall a, In a l -> p a = false) -> tally p l = 0.
Proof.
  induction l as [|a l IH]; intros H; [reflexivity|].
  rewrite tally_cons, IH by (intros b Hb; apply H; now right).
  rewrite (H a) by now left. reflexivity.
Qed.

End Tally.

Ltac counters_eq :=
  unfold counters; cbn; repeat apply (f_equal2 pair); lia.

Section DrainCounters.

Variable x : run_input.

(** What one turn of the loop does to the four counters. *)
Lemma drain_counters (account : string) (w : world) :
  counters (self (snd (drain x account w)))
  = (checked_count (self w) + Z.b2z (answered x account),
     valid_count (self w) + Z.b2z (saved x account),
     error_count (self w) + Z.b2z (negb (answered x account))
       + Z.b2z (append_refused x account),
     rate_limit_count (self w) + Z.b2z (rate_limited x account)).
Proof.
  unfold answered, saved, append_refused, rate_limited.
  destruct (network x account) as [sc hdrs|e] eqn:N.
  - rewrite (drain_answered x account w sc hdrs N). cbn [snd].
    destruct (Z.eq_dec sc 200) as [->|H200].
    + destruct (append_io x account); counters_eq.
    + assert (E : (sc =? 200) = false) by now apply Z.eqb_neq.
      rewrite E.
      replace (match append_io x account with IoOk => false | IoError _ => false end)
        with false by (destruct (append_io x account); reflexivity).
      destruct (Z.eq_dec sc 429) as [->|H429];
        [counters_eq|].
      assert (E' : (sc =? 429) = false) by now apply Z.eqb_neq.
      rewrite E'.
      destruct (Z.eq_dec sc 404) as [->|H404];
        [counters_eq|].
      rewrite process_response_other by assumption.
      counters_eq.
  - destruct (request_exception_dec e).
    + rewrite (drain_failed x account w e) by assumption.
      counters_eq.
    + rewrite (drain_crashed x account w e) by assumption.
      counters_eq.
Qed.

(** One turn of the loop logs an error record exactly when it counts an
    error. *)
Lemma drain_errors_logged (account : string) (w : world) :
  errors_logged (snd (drain x account w)) - errors_logged w
  = error_count (self (snd (drain x account w))) - error_count (self w).
Proof.
  assert (Hsnoc : forall (l : list (level * string)) r,
    Z.of_nat (List.length
                (filter (fun r => match fst r with ERROR => true | _ => false end)
                   (l ++ [r])))
    = Z.of_nat (List.length
                  (filter (fun r => match fst r with ERROR => true | _ => false end) l))
      + (match fst r with ERROR => 1 | _ => 0 end)).
  { intros l r. rewrite filter_app, length_app. cbn [filter].
    destruct (fst r); cbn [List.length]; lia. }
  unfold errors_logged.
  destruct (network x account) as [sc hdrs|e] eqn:N.
  - rewrite (drain_answered x account w sc hdrs N). cbn [snd].
    destruct (Z.eq_dec sc 200) as [->|H200].
    + destruct (append_io x account); cbn [process_response_200_ok];
        [rewrite process_response_200_ok | rewrite process_response_200_io_error];
        cbn [snd logged self after_processing_error with_self];
        rewrite Hsnoc; cbn; lia.
    + destruct (Z.eq_dec sc 429) as [->|H429];
        [rewrite process_response_429; cbn [snd logged self with_self];
         rewrite Hsnoc; cbn; lia|].
      destruct (Z.eq_dec sc 404) as [->|H404];
        [rewrite process_response_404; cbn; lia|].
      rewrite process_response_other by assumption.
      cbn [snd logged self with_self]. rewrite Hsnoc; cbn; lia.
  - destruct (request_exception_dec e).
    + rewrite (drain_failed x account w e) by assumption.
      cbn [snd logged self]. rewrite Hsnoc; cbn; lia.
    + rewrite (drain_crashed x account w e) by assumption.
      cbn [snd logged self]. rewrite Hsnoc; cbn; lia.
Qed.

(** The loop over any list of completed fetches, counter by counter. *)
Lemma for_each_drain_counters (l : list string) : forall w,
  counters (self (snd (for_each l (drain x) w)))
  = (checked_count (self w) + tally (answered x) l,
     valid_count (self w) + tally (saved x) l,
     error_count (self w) + tally (fun a => negb (answered x a)) l
       + tally (append_refused x) l,
     rate_limit_count (self w) + tally (rate_limited x) l).
Proof.
  induction l as [|a l IH]; intros w.
  - rewrite !tally_nil. counters_eq.
  - rewrite for_each_drain_cons, IH.
    pose proof (drain_counters a w) as H. unfold counters in H.
    injection H as -> -> -> ->.
    rewrite !tally_cons. repeat apply (f_equal2 pair); lia.
Qed.

Lemma for_each_drain_errors_logged (l : list string) : forall w,
  errors_logged (snd (for_each l (drain x) w)) - errors_logged w
  = error_count (self (snd (for_each l (drain x) w))) - error_count (self w).
Proof.
  induction l as [|a l IH]; intros w; [cbn; lia|].
  rewrite for_each_drain_cons.
  pose proof (IH (snd (drain x a w))) as H1.
  pose proof (drain_errors_logged a w) as H2. lia.
Qed.

(** An account is saved or rate limited only if it was answered, and not
    both. *)
Lemma tally_saved_limited_le_answered (l : list string) :
  tally (saved x) l + tally (rate_limited x) l <= tally (answered x) l.
Proof.
  induction l as [|a l IH]; [reflexivity|].
  rewrite !tally_cons.
  assert (Z.b2z (saved x a) + Z.b2z (rate_limited x a) <= Z.b2z (answered x a)).
  { unfold saved, rate_limited, answered.
    destruct (network x a) as [sc hdrs|e]; [|cbn; lia].
    destruct (Z.eq_dec sc 200) as [->|H200].
    - destruct (append_io x a); cbn; lia.
    - assert (E : (sc =? 200) = false) by now apply Z.eqb_neq.
      rewrite E. destruct (append_io x a), (sc =? 429); cbn; lia. }
  lia.
Qed.

End DrainCounters.

Section RunAccounting.

Variable x : run_input.
Variable w : world.

Lemma tally_answered_split (l : list string) :
  tally (answered x) l + tally (fun a => negb (answered x a)) l
  = Z.of_nat (List.length l).
Proof.
  induction l as [|a l IH]; [reflexivity|].
  rewrite !tally_cons. cbn [List.length]. rewrite Nat2Z.inj_succ.
  destruct (answered x a); cbn [Z.b2z negb]; lia.
Qed.

Lemma errors_logged_info (w0 : world) (msg : string) :
  errors_logged (snd (logger INFO msg w0)) = errors_logged w0.
Proof.
  unfold errors_logged. cbn. rewrite filter_app, length_app. cbn. lia.
Qed.

Lemma run_start_errors_logged : errors_logged (run_start x w) = errors_logged w.
Proof.
  unfold errors_logged, run_start. cbn [logged].
  rewrite !filter_app, !length_app. cbn. lia.
Qed.

Lemma after_final_results_errors_logged (w0 : world) :
  errors_logged (after_final_results w0) = errors_logged w0.
Proof.
  unfold errors_logged, after_final_results. cbn [logged].
  rewrite filter_app, length_app. cbn. lia.
Qed.

(** A confirmed run, in full: the table and the world it leaves. *)
Lemma run_validation_confirmed_full (t : results_table) :
  fst (run_validation x w) = Returned (Some t) ->
  run_validation x w = (Returned (Some t), after_final_results (run_loop x w))
  /\ final_results (time_end x) (range_end (self w) - range_start (self w) + 1)
       (run_loop x w)
     = (Returned t, after_final_results (run_loop x w)).
Proof.
  intros Ht. destruct (run_validation_table x w t Ht) as [S C].
  destruct (run_validation_confirmed x w S C) as (t' & E & _).
  rewrite E in Ht. cbn in Ht. injection Ht as ->. split; [exact E|].
  destruct (final_results_returns (time_end x) (run_loop x w)
              (range_end (self w) - range_start (self w) + 1)
              (time_start x) (run_loop_start_time x w)) as (t2 & Hfin & _).
  rewrite Hfin. f_equal. f_equal.
  revert E. unfold run_validation, setup_files, bind, open_write, logger,
    update, get_self. rewrite S, C. cbn [negb].
  unfold try_finally, try_except.
  change (for_each (as_completed x _) (drain x) _)
    with (for_each (completed x w) (drain x) (run_start x w)).
  pose proof (for_each_drain_returns x (completed x w) (run_start x w)) as Hret.
  destruct (for_each (completed x w) (drain x) (run_start x w)) as [r w5] eqn:E5.
  cbn in Hret. subst r.
  assert (Hw : w5 = run_loop x w) by (unfold run_loop; now rewrite E5).
  subst w5.
  change (final_results (time_end x) _ (run_loop x w))
    with (final_results (time_end x)
            (range_end (self w) - range_start (self w) + 1) (run_loop x w)).
  rewrite Hfin. cbn. intros [= <-]. reflexivity.
Qed.

End RunAccounting.

(** ** What a run adds up to *)

(** The counters after a run that took place, counter by counter, and the
    counts of its table. *)
Lemma run_counters (x : run_input) (w : world) (t : results_table) :
  fst (run_validation x w) = Returned (Some t) ->
  counters (self (snd (run_validation x w)))
  = (checked_count (self w) + tally (answered x) (completed x w),
     valid_count (self w) + tally (saved x) (completed x w),
     error_count (self w)
       + tally (fun a => negb (answered x a)) (completed x w)
       + tally (append_refused x) (completed x w),
     rate_limit_count (self w) + tally (rate_limited x) (completed x w))
  /\ (res_checked t, res_valid t, res_errors t, res_rate_limits t)
     = counters (self (snd (run_validation x w))).
Proof.
  intros Ht. destruct (run_validation_table x w t Ht) as [S C].
  destruct (run_validation_confirmed x w S C) as (t' & E & Hcount).
  rewrite E in Ht |- *. cbn in Ht. injection Ht as ->.
  cbn [snd after_final_results self]. unfold run_loop in *.
  rewrite <- Hcount.
  change (counters (set_is_running false ?v)) with (counters v).
  split; [|reflexivity].
  rewrite for_each_drain_counters. reflexivity.
Qed.

(** X1.  The counters after a run that took place, and the counts printed
    in its table: each counter is its value before the run plus the number of
    completed accounts that were answered (checked), saved (valid), answered
    with status 429 (rate limits); errors grow by the number of accounts not
    answered plus the number of valid accounts whose line could not be
    written.  The counters are not reset when a run starts. *)
Theorem run_validation_accounting (x : run_input) (w : world) (t : results_table) :
  fst (run_validation x w) = Returned (Some t) ->
  counters (self (snd (run_validation x w)))
  = (checked_count (self w) + tally (answered x) (completed x w),
     valid_count (self w) + tally (saved x) (completed x w),
     error_count (self w)
       + tally (fun a => negb (answered x a)) (completed x w)
       + tally (append_refused x) (completed x w),
     rate_limit_count (self w) + tally (rate_limited x) (completed x w))
  /\ (res_checked t, res_valid t, res_errors t, res_rate_limits t)
     = counters (self (snd (run_validation x w))).
Proof. exact (run_counters x w t). Qed.

(** X1, on the run with one valid, one rate limited and three unknown
    accounts, started with the counters left by an earlier run of five. *)
Lemma run_validation_accounting_witness :
  counters (self (snd (run_validation Scenario.mixed Cases.after_first_run)))
  = (10, 1, 0, 1).
Proof.
  edestruct (run_validation_accounting Scenario.mixed Cases.after_first_run)
    as [H _]; [vm_compute; reflexivity|].
  rewrite H. vm_compute. reflexivity.
Defined.

(** X2.  A run accounts for every completed account: over a run that took
    place, checked and errors together grow by the number of completed
    accounts, plus one more error for each valid account whose line could not
    be written.  When the completed fetches are the submitted ones and the
    range is not empty, that number is the total [end - start + 1]. *)
Theorem run_validation_counts_every_account
  (x : run_input) (w : world) (t : results_table) :
  fst (run_validation x w) = Returned (Some t) ->
  (res_checked t - checked_count (self w))
  + (res_errors t - error_count (self w))
  = Z.of_nat (List.length (completed x w))
    + tally (append_refused x) (completed x w)
  /\ (Permutation (account_numbers (self w)) (completed x w) ->
      range_start (self w) <= range_end (self w) ->
      Z.of_nat (List.length (completed x w))
      = range_end (self w) - range_start (self w) + 1).
Proof.
  intros Ht.
  destruct (run_counters x w t Ht) as [Hc Ht'].
  rewrite Hc in Ht'. injection Ht' as -> _ -> _.
  pose proof (tally_answered_split x (completed x w)) as Hs.
  split; [lia|].
  intros Hperm Hle.
  rewrite <- (Permutation_length Hperm), account_numbers_length. lia.
Qed.

(** X2, on the run in which one probe times out and the valid account
    cannot be saved: five accounts, six counts. *)
Lemma run_validation_counts_every_account_witness :
  exists t, fst (run_validation Cases.troubled Scenario.five) = Returned (Some t)
    /\ res_checked t = 4 /\ res_errors t = 2
    /\ (res_checked t - checked_count (self Scenario.five))
       + (res_errors t - error_count (self Scenario.five))
       = Z.of_nat (List.length (completed Cases.troubled Scenario.five))
         + tally (append_refused Cases.troubled)
             (completed Cases.troubled Scenario.five).
Proof.
  eexists. split; [vm_compute; reflexivity|].
  split; [reflexivity|]. split; [reflexivity|].
  apply (run_validation_counts_every_account Cases.troubled Scenario.five).
  vm_compute. reflexivity.
Defined.

(** Sound counters stay sound over a call of [run_validation]. *)
Lemma run_counters_ok (x : run_input) (w : world) :
  counters_ok (self w) -> counters_ok (self (snd (run_validation x w))).
Proof.
  intros Hok. destruct (setup_io x) as [|msg] eqn:S.
  - destruct (confirmed x) eqn:C.
    + destruct (run_validation_confirmed x w S C) as (t & E & _).
      assert (Ht : fst (run_validation x w) = Returned (Some t)) by now rewrite E.
      destruct (run_counters x w t Ht) as [Hc _].
      unfold counters in Hc. injection Hc as H1 H2 H3 H4.
      unfold counters_ok in *. rewrite H1, H2, H3, H4.
      pose proof (tally_saved_limited_le_answered x (completed x w)).
      pose proof (tally_nonneg (saved x) (completed x w)).
      pose proof (tally_nonneg (rate_limited x) (completed x w)).
      pose proof (tally_nonneg (append_refused x) (completed x w)).
      pose proof (tally_nonneg (fun a => negb (answered x a)) (completed x w)).
      lia.
    + now rewrite run_validation_declined.
  - now rewrite (run_validation_setup_failed x w msg S).
Qed.

(** X3.  The counters stay sound over any call of [run_validation],
    however it ends: if no counter is negative and valid plus rate-limited
    accounts do not exceed the checked ones before, the same holds after. *)
Theorem run_validation_keeps_counters_sound (x : run_input) (w : world) :
  counters_ok (self w) -> counters_ok (self (snd (run_validation x w))).
Proof. exact (run_counters_ok x w). Qed.

(** X3, on the run of the first scenario from fresh counters. *)
Lemma run_validation_keeps_counters_sound_witness :
  counters_ok (self (snd (run_validation Scenario.mixed Scenario.five))).
Proof.
  apply run_validation_keeps_counters_sound. vm_compute.
  repeat split; discriminate.
Defined.

(** What a run that took place leaves of the settings. *)
Lemma run_settings
  (x : run_input) (w : world) (t : results_table) :
  fst (run_validation x w) = Returned (Some t) ->
  configuration (self (snd (run_validation x w))) = configuration (self w)
  /\ is_running (self (snd (run_validation x w))) = false
  /\ start_time (self (snd (run_validation x w))) = Some (time_start x).
Proof.
  intros Ht. destruct (run_validation_confirmed_full x w t Ht) as [E _].
  rewrite E. cbn [snd after_final_results self].
  pose proof (for_each_drain_settings x (completed x w) (run_start x w)) as H.
  unfold settings in H. cbn [run_start self] in H.
  fold (run_loop x w) in H. injection H as H1 H2 H3 H4 H5 H6.
  unfold configuration. cbn. rewrite ?H1, ?H2, ?H3, ?H4, ?H5. repeat split.
Qed.

(** X4.  A run that took place leaves the range and the worker counts as
    they were, the validator not running, and its start time at the start of
    this run. *)
Theorem run_validation_keeps_configuration
  (x : run_input) (w : world) (t : results_table) :
  fst (run_validation x w) = Returned (Some t) ->
  configuration (self (snd (run_validation x w))) = configuration (self w)
  /\ is_running (self (snd (run_validation x w))) = false
  /\ start_time (self (snd (run_validation x w))) = Some (time_start x).
Proof. exact (run_settings x w t). Qed.

(** X4, on the run of the first scenario. *)
Lemma run_validation_keeps_configuration_witness :
  configuration (self (snd (run_validation Scenario.mixed Scenario.five)))
  = (1000000000000000, 1000000000000004, 10, 5).
Proof.
  edestruct (run_validation_keeps_configuration Scenario.mixed Scenario.five)
    as [H _]; [vm_compute; reflexivity|].
  rewrite H. reflexivity.
Defined.



(** X6.  A call of [run_validation] that is declined at the prompt has
    already emptied the output file; the validator is as it was. *)
Theorem run_validation_declined_empties_file (x : run_input) (w : world) :
  setup_io x = IoOk -> confirmed x = false ->
  fst (run_validation x w) = Returned None
  /\ valid_accounts (snd (run_validation x w)) = ""
  /\ self (snd (run_validation x w)) = self w.
Proof.
  intros S C. unfold run_validation, setup_files, bind, open_write.
  rewrite S, C. repeat split.
Qed.

(** X6, on a world whose output file held a line. *)
Lemma run_validation_declined_empties_file_witness :
  valid_accounts Scenario.used = "1000000000000123" ++ newline
  /\ valid_accounts (snd (run_validation Cases.declined Scenario.used)) = "".
Proof.
  split; [reflexivity|].
  apply (run_validation_declined_empties_file Cases.declined Scenario.used);
    reflexivity.
Defined.

Section Percentages.

Variable now : Q.
Variable total_accounts : Z.
Variable w : world.


End Percentages.




(** X8.  Every error a run counts is logged once: over a run that took
    place with both pools built (both worker counts positive), the number of
    error records in the log grows by exactly what [error_count] grows by. *)
Theorem run_validation_logs_each_error
  (x : run_input) (w : world) (t : results_table) :
  0 < fetch_workers (self w) -> 0 < process_workers (self w) ->
  fst (run_validation x w) = Returned (Some t) ->
  errors_logged (snd (run_validation x w)) - errors_logged w
  = error_count (self (snd (run_validation x w))) - error_count (self w).
Proof.
  intros _ _ Ht. destruct (run_validation_confirmed_full x w t Ht) as [E _].
  rewrite E. cbn [snd]. rewrite after_final_results_errors_logged.
  cbn [after_final_results self].
  change (error_count (set_is_running false ?v)) with (error_count v).
  unfold run_loop.
  pose proof (for_each_drain_errors_logged x (completed x w) (run_start x w)) as H.
  rewrite run_start_errors_logged in H.
  change (error_count (self (run_start x w))) with (error_count (self w)) in H.
  exact H.
Qed.

(** X8, on the run with a timeout and a refused append: two errors, two
    error records. *)
Lemma run_validation_logs_each_error_witness :
  errors_logged (snd (run_validation Cases.troubled Scenario.five))
  - errors_logged Scenario.five
  = error_count (self (snd (run_validation Cases.troubled Scenario.five)))
    - error_count (self Scenario.five)
  /\ errors_logged (snd (run_validation Cases.troubled Scenario.five)) = 2.
Proof.
  split; [|vm_compute; reflexivity].
  eapply (run_validation_logs_each_error Cases.troubled Scenario.five).
  - reflexivity.
  - reflexivity.
  - vm_compute. reflexivity.
Defined.

Lemma tally_ext (p q : string -> bool) (l : list string) :
  (forall a, p a = q a) -> tally p l = tally q l.
Proof.
  intros H. induction l as [|a l IH]; [reflexivity|].
  now rewrite !tally_cons, IH, H.
Qed.

(** X9.  The order in which the fetches complete does not matter to the
    counters: two runs on the same world that meet the same network and the
    same file system, and whose completed fetches are a permutation of each
    other, end with the same four counters. *)
Theorem run_validation_counters_any_order
  (x x' : run_input) (w : world) (t t' : results_table) :
  fst (run_validation x w) = Returned (Some t) ->
  fst (run_validation x' w) = Returned (Some t') ->
  (forall a, network x a = network x' a) ->
  (forall a, append_io x a = append_io x' a) ->
  Permutation (completed x w) (completed x' w) ->
  counters (self (snd (run_validation x w)))
  = counters (self (snd (run_validation x' w))).
Proof.
  intros Ht Ht' Hnet Hio Hperm.
  destruct (run_counters x w t Ht) as [-> _].
  destruct (run_counters x' w t' Ht') as [-> _].
  rewrite (tally_permutation _ _ _ Hperm).
  rewrite (tally_permutation (saved x) _ _ Hperm).
  rewrite (tally_permutation (fun a => negb (answered x a)) _ _ Hperm).
  rewrite (tally_permutation (append_refused x) _ _ Hperm).
  rewrite (tally_permutation (rate_limited x) _ _ Hperm).
  rewrite (tally_ext (answered x) (answered x')), (tally_ext (saved x) (saved x')),
    (tally_ext (fun a => negb (answered x a)) (fun a => negb (answered x' a))),
    (tally_ext (append_refused x) (append_refused x')),
    (tally_ext (rate_limited x) (rate_limited x')); [reflexivity|..];
    intros a; unfold answered, saved, append_refused, rate_limited;
    rewrite ?Hnet, ?Hio; reflexivity.
Qed.

(** X9, on the first scenario in the order of submission and in the
    reverse order. *)
Lemma run_validation_counters_any_order_witness :
  counters (self (snd (run_validation Cases.mixed_in_order Scenario.five)))
  = counters (self (snd (run_validation Scenario.mixed Scenario.five))).
Proof.
  eapply (run_validation_counters_any_order Cases.mixed_in_order Scenario.mixed
            Scenario.five).
  - vm_compute. reflexivity.
  - vm_compute. reflexivity.
  - intros a. reflexivity.
  - intros a. reflexivity.
  - apply Permutation_rev.
Defined.

(** X10.  The statistics panel after a run shows the counts of the run's
    own table, and the time elapsed since the start of that run; before any
    run has started it shows no statistics. *)
Theorem create_stats_table_after_run
  (x : run_input) (w : world) (t : results_table) (now : Q) :
  fst (run_validation x w) = Returned (Some t) ->
  Qeq_bool (time_start x) 0 = false ->
  (exists rate,
     fst (create_stats_table now (snd (run_validation x w)))
     = Returned (Statistics (res_checked t) (res_valid t) (res_errors t)
                   (res_rate_limits t) (now - time_start x)%Q rate))
  /\ (start_time (self w) = None ->
      fst (create_stats_table now w) = Returned NoStatistics).
Proof.
  intros Ht Hz. split.
  - destruct (run_counters x w t Ht) as [_ Hc].
    destruct (run_settings x w t Ht) as (_ & _ & Hst).
    destruct (create_stats_table_returns now (snd (run_validation x w)))
      as (p & Hp & Hrate).
    destruct (Hrate (time_start x) Hst Hz) as (rate & -> & _).
    exists rate. rewrite Hp. cbn [fst]. unfold counters in Hc.
    injection Hc as -> -> -> ->. reflexivity.
  - intros Hnone. unfold create_stats_table, bind, get_self.
    rewrite Hnone. reflexivity.
Qed.

(** X10, on the first scenario, read eight seconds after its end. *)
Lemma create_stats_table_after_run_witness :
  exists rate,
    fst (create_stats_table 20
           (snd (run_validation Scenario.mixed Scenario.five)))
    = Returned (Statistics 5 1 0 1 (20 - 10)%Q rate).
Proof.
  edestruct (create_stats_table_after_run Scenario.mixed Scenario.five)
    as [(rate & H) _].
  - vm_compute. reflexivity.
  - reflexivity.
  - exists rate. exact H.
Defined.

(** ** The dialogs, further *)

Section Width.

Lemma str_neg_len (p : positive) : len (str (Z.neg p)) = 1 + len (str (Z.pos p)).
Proof.
  unfold len, str. cbn [Z.to_int NilZero.string_of_int String.length]. lia.
Qed.

(** The width test of the range dialog, in terms of the integer. *)
Lemma str_len_16_iff (z : Z) : len (str z) = 16 <-> passes_width z.
Proof.
  unfold passes_width. destruct z as [|p|p].
  - rewrite StrFacts.str_len_16 by lia. lia.
  - rewrite StrFacts.str_len_16 by lia. lia.
  - rewrite str_neg_len.
    pose proof (StrFacts.str_pos_len_iff (Z.pos p) 15 ltac:(lia) ltac:(lia)) as H.
    change (10 ^ (15 - 1)) with 100000000000000 in H.
    change (10 ^ 15) with 1000000000000000 in H.
    split.
    + intros E. assert (E' : len (str (Z.pos p)) = 15) by lia.
      apply H in E'. lia.
    + intros [Hc|Hc]; [lia|].
      assert (E' : len (str (Z.pos p)) = 15) by (apply H; lia). lia.
Qed.

End Width.

(** A worker count within the dialog's bounds prints in two characters at
    most. *)
Lemma str_len_small (z : Z) : 1 <= z <= 50 -> len (str z) <= 2.
Proof.
  intros Hz. destruct z as [|p|p]; try lia.
  pose proof (StrFacts.str_pos_length p) as [Hlo _].
  destruct (Z_le_gt_dec (len (str (Z.pos p))) 2) as [H|H]; [exact H|].
  assert (10 ^ 2 <= 10 ^ (len (str (Z.pos p)) - 1))
    by (apply Z.pow_le_mono_r; lia).
  change (10 ^ 2) with 100 in *. lia.
Qed.

Lemma with_self_range_same (w : world) :
  with_self (set_range_end (range_end (self w)))
    (with_self (set_range_start (range_start (self w))) w) = w.
Proof. destruct w as [[] f l]. reflexivity. Qed.

Lemma with_self_workers_same (w : world) :
  with_self (set_process_workers (process_workers (self w)))
    (with_self (set_fetch_workers (fetch_workers (self w))) w) = w.
Proof. destruct w as [[] f l]. reflexivity. Qed.

(** X11.  The range dialog accepts two integers read by [int()] (text of
    at most 4300 digits; the current bounds, which are printed as defaults,
    being printable) exactly when each has 16 digits, or is negative with 15
    digits, and the first is below the second; the minus sign counts for the
    width test. *)
Theorem set_custom_range_accepts_iff
  (typed_start typed_end : string) (w : world) (s e : Z) :
  printable (range_start (self w)) ->
  printable (range_end (self w)) ->
  int_value (start_text typed_start w) = Some s ->
  int_value (end_text typed_end w) = Some e ->
  fst (set_custom_range typed_start typed_end w) = Returned true
  <-> passes_width s /\ passes_width e /\ s < e.
Proof.
  intros _ _ Hs He.
  rewrite (set_custom_range_numbers _ _ _ s e Hs He).
  rewrite <- !str_len_16_iff.
  destruct (len (str s) =? 16) eqn:Ls; [apply Z.eqb_eq in Ls|apply Z.eqb_neq in Ls];
    (destruct (len (str e) =? 16) eqn:Le; [apply Z.eqb_eq in Le|apply Z.eqb_neq in Le]);
    cbn [negb orb fst].
  - destruct (s >=? e) eqn:G; rewrite Z.geb_leb in G;
      [apply Z.leb_le in G | apply Z.leb_gt in G]; cbn [fst].
    + split; [discriminate | lia].
    + split; [now auto | reflexivity].
  - split; [discriminate | intros (_ & H & _); contradiction].
  - split; [discriminate | intros (H & _ & _); contradiction].
  - split; [discriminate | intros (H & _ & _); contradiction].
Qed.

(** X11, for two negative bounds of 15 digits: they are accepted. *)
Lemma set_custom_range_accepts_iff_witness :
  fst (set_custom_range "-999999999999999" "-100000000000000" Scenario.fresh)
  = Returned true.
Proof.
  apply (set_custom_range_accepts_iff "-999999999999999" "-100000000000000"
           Scenario.fresh (-999999999999999) (-100000000000000)).
  - vm_compute. discriminate.
  - vm_compute. discriminate.
  - reflexivity.
  - reflexivity.
  - unfold passes_width. lia.
Defined.

(** 1000000000000000 written after 4300 zeros is beyond what [int()] reads:
    the dialog answers [False] and keeps the range. *)
Example set_custom_range_digit_limit :
  set_custom_range Cases.padded_start "1000000000000005" Scenario.fresh
  = (Returned false, Scenario.fresh).
Proof. vm_compute. reflexivity. Qed.

(** A configuration that passes the tests still does after either dialog. *)
Lemma dialogs_config_ok (typed_a typed_b : string) (w : world) :
  config_ok (self w) ->
  config_ok (self (snd (set_custom_range typed_a typed_b w)))
  /\ config_ok (self (snd (configure_threads typed_a typed_b w))).
Proof.
  intros (H1 & H2 & H3 & H4 & H5). split.
  - destruct (int_value (start_text typed_a w)) as [s|] eqn:Hs;
      [destruct (int_value (end_text typed_b w)) as [e|] eqn:He|].
    + rewrite (set_custom_range_numbers _ _ _ s e Hs He).
      destruct (len (str s) =? 16) eqn:Ls; [|now repeat split].
      destruct (len (str e) =? 16) eqn:Le; [|now repeat split].
      cbn [negb orb].
      destruct (s >=? e) eqn:G; [now repeat split|].
      rewrite Z.geb_leb in G. apply Z.leb_gt in G.
      apply Z.eqb_eq in Ls, Le. unfold config_ok. cbn. repeat split; lia.
    + rewrite set_custom_range_not_a_number by auto. now repeat split.
    + rewrite set_custom_range_not_a_number by auto. now repeat split.
  - destruct (int_value (fetch_text typed_a w)) as [f|] eqn:Hf;
      [destruct (int_value (process_text typed_b w)) as [p|] eqn:Hp|].
    + rewrite (configure_threads_numbers _ _ _ f p Hf Hp).
      unfold config_ok. cbn. repeat split; lia.
    + rewrite configure_threads_not_a_number by auto. now repeat split.
    + rewrite configure_threads_not_a_number by auto. now repeat split.
Qed.

(** X12.  Both dialogs keep the configuration within their own tests,
    whatever is typed: if the range and the worker counts pass the tests
    before a dialog, they pass them after it. *)
Theorem dialogs_keep_config_ok (typed_a typed_b : string) (w : world) :
  config_ok (self w) ->
  config_ok (self (snd (set_custom_range typed_a typed_b w)))
  /\ config_ok (self (snd (configure_threads typed_a typed_b w))).
Proof. exact (dialogs_config_ok typed_a typed_b w). Qed.

(** X12, on a fresh validator given a new range, and given worker counts
    out of bounds. *)
Lemma dialogs_keep_config_ok_witness :
  config_ok (self (snd (set_custom_range "2000000000000000" "2000000000000500"
                          Scenario.fresh)))
  /\ config_ok (self (snd (configure_threads "-3" "999" Scenario.fresh))).
Proof.
  assert (H : config_ok (self Scenario.fresh)).
  { unfold config_ok. cbn. repeat split; vm_compute; (reflexivity || discriminate). }
  split.
  - apply (dialogs_keep_config_ok "2000000000000000" "2000000000000500"
             Scenario.fresh H).
  - apply (dialogs_keep_config_ok "-3" "999" Scenario.fresh H).
Defined.

(** X13.  An empty line at a prompt stands for the current value: on a
    configuration that passes the tests, the range dialog answered with two
    empty lines returns [True] and changes nothing, and so does the thread
    dialog. *)
Theorem dialogs_keep_defaults (w : world) :
  config_ok (self w) ->
  set_custom_range "" "" w = (Returned true, w)
  /\ configure_threads "" "" w = (Returned true, w).
Proof.
  intros (H1 & H2 & H3 & H4 & H5). split.
  - rewrite (set_custom_range_numbers "" "" w (range_start (self w))
               (range_end (self w)))
      by (apply int_value_str; unfold max_str_digits; lia).
    rewrite H1, H2. cbn [Z.eqb Pos.eqb negb orb].
    destruct (range_start (self w) >=? range_end (self w)) eqn:G.
    + rewrite Z.geb_leb in G. apply Z.leb_le in G. lia.
    + now rewrite with_self_range_same.
  - rewrite (configure_threads_numbers "" "" w (fetch_workers (self w))
               (process_workers (self w)))
      by (apply int_value_str; unfold max_str_digits;
          match goal with
          | |- len (str ?z) <= _ => pose proof (str_len_small z ltac:(lia)); lia
          end).
    rewrite Z.min_l, Z.max_r, Z.min_l, Z.max_r by lia.
    now rewrite with_self_workers_same.
Qed.

(** X13, on the validator left by an earlier run. *)
Lemma dialogs_keep_defaults_witness :
  set_custom_range "" "" Scenario.used = (Returned true, Scenario.used).
Proof.
  apply dialogs_keep_defaults.
  unfold config_ok. cbn. repeat split; vm_compute; (reflexivity || discriminate).
Defined.

(** ** The menu *)

Section Panels.

Variable now : Q.
Variable w : world.

(** Showing the panels changes nothing and never raises. *)
Lemma show_stats_panel_returns :
  exists p,
    show_stats_panel now w
    = (Returned
         (mkConfig (range_start (self w)) (range_end (self w))
            (range_end (self w) - range_start (self w) + 1)
            (str (fetch_workers (self w))) (str (process_workers (self w)))
            (if negb (is_running (self w)) then Ready else Running), p), w).
Proof.
  destruct (create_stats_table_returns now w) as (p & Hp & _).
  exists p. unfold show_stats_panel, create_config_table, bind, get_self, ret.
  now rewrite Hp.
Qed.

Lemma show_stats_panel_ready :
  at_rest (self w) ->
  exists screen,
    show_stats_panel now w = (Returned screen, w) /\ shown_ready screen.
Proof.
  intros ((_ & _ & Hlt & _) & _ & Hrun).
  destruct show_stats_panel_returns as (p & ->).
  eexists. split; [reflexivity|]. unfold shown_ready. cbn.
  rewrite Hrun. split; [reflexivity | lia].
Qed.

End Panels.

Lemma config_ok_configuration (v v' : AccountValidator) :
  configuration v' = configuration v -> config_ok v -> config_ok v'.
Proof.
  unfold configuration, config_ok. intros [= -> -> -> ->]. auto.
Qed.

(** A validator at rest is at rest after a call of [run_validation],
    however the call ends. *)
Lemma run_validation_at_rest (x : run_input) (w : world) :
  at_rest (self w) -> at_rest (self (snd (run_validation x w))).
Proof.
  intros (Hc & Hk & Hr). split; [|split].
  - destruct (setup_io x) as [|msg] eqn:S.
    + destruct (confirmed x) eqn:C.
      * destruct (run_validation_confirmed x w S C) as (t & E & _).
        assert (Ht : fst (run_validation x w) = Returned (Some t)) by now rewrite E.
        destruct (run_settings x w t Ht) as (Hcfg & _).
        now apply (config_ok_configuration (self w)).
      * now rewrite run_validation_declined.
    + now rewrite (run_validation_setup_failed x w msg S).
  - now apply run_counters_ok.
  - destruct (setup_io x) as [|msg] eqn:S.
    + destruct (confirmed x) eqn:C.
      * destruct (run_validation_confirmed x w S C) as (t & E & _).
        assert (Ht : fst (run_validation x w) = Returned (Some t)) by now rewrite E.
        now destruct (run_settings x w t Ht) as (_ & H & _).
      * now rewrite run_validation_declined.
    + now rewrite (run_validation_setup_failed x w msg S).
Qed.

(** Neither dialog raises. *)
Lemma set_custom_range_returns (a b : string) (w : world) :
  exists r, fst (set_custom_range a b w) = Returned r.
Proof. apply set_custom_range_false_unchanged. Qed.

Lemma configure_threads_returns (a b : string) (w : world) :
  exists r, fst (configure_threads a b w) = Returned r.
Proof.
  destruct (int_value (fetch_text a w)) as [f|] eqn:Hf;
    [destruct (int_value (process_text b w)) as [p|] eqn:Hp|].
  - rewrite (configure_threads_numbers _ _ _ f p Hf Hp). now exists true.
  - rewrite configure_threads_not_a_number by auto. now exists false.
  - rewrite configure_threads_not_a_number by auto. now exists false.
Qed.

(** A dialog touches the configuration only. *)
Lemma set_custom_range_at_rest (a b : string) (w : world) :
  at_rest (self w) -> at_rest (self (snd (set_custom_range a b w))).
Proof.
  intros (Hc & Hk & Hr). split; [now apply dialogs_config_ok|].
  destruct (int_value (start_text a w)) as [s|] eqn:Hs;
    [destruct (int_value (end_text b w)) as [e|] eqn:He|].
  - rewrite (set_custom_range_numbers _ _ _ s e Hs He).
    destruct (negb (len (str s) =? 16) || negb (len (str e) =? 16));
      [now split|].
    destruct (s >=? e); now split.
  - rewrite set_custom_range_not_a_number by auto. now split.
  - rewrite set_custom_range_not_a_number by auto. now split.
Qed.

Lemma configure_threads_at_rest (a b : string) (w : world) :
  at_rest (self w) -> at_rest (self (snd (configure_threads a b w))).
Proof.
  intros (Hc & Hk & Hr). split; [now apply dialogs_config_ok|].
  destruct (int_value (fetch_text a w)) as [f|] eqn:Hf;
    [destruct (int_value (process_text b w)) as [p|] eqn:Hp|].
  - rewrite (configure_threads_numbers _ _ _ f p Hf Hp). now split.
  - rewrite configure_threads_not_a_number by auto. now split.
  - rewrite configure_threads_not_a_number by auto. now split.
Qed.

Section Bind.

Context {A B : Type}.
Variables (c : M A) (k : A -> M B) (w w' : world).

Lemma bind_returned (a : A) : c w = (Returned a, w') -> bind c k w = k a w'.
Proof. unfold bind. now intros ->. Qed.

Lemma bind_raised (e : exception) :
  c w = (Raised e, w') -> bind c k w = (Raised e, w').
Proof. unfold bind. now intros ->. Qed.

End Bind.

(** What the turns after the first add to a turn that showed [shown]. *)
Lemma main_menu_loop_rest
  (rest : list (Q * menu_entry)) (w1 : world)
  (shown : list (config_table * stats_panel))
  (E : Prop) (P : exception -> Prop) :
  Forall shown_ready shown ->
  (at_rest (self (snd (main_menu_loop rest w1)))
   /\ (forall screens, fst (main_menu_loop rest w1) = Returned screens ->
       Forall shown_ready screens /\ E)
   /\ (forall e, fst (main_menu_loop rest w1) = Raised e -> P e)) ->
  let r := bind (main_menu_loop rest) (fun more => ret (shown ++ more)%list) w1 in
  at_rest (self (snd r))
  /\ (forall screens, fst r = Returned screens -> Forall shown_ready screens /\ E)
  /\ (forall e, fst r = Raised e -> P e).
Proof.
  intros Hshown (I1 & I2 & I3) r. subst r. unfold bind.
  destruct (main_menu_loop rest w1) as [[more|e] w2]; cbn in *.
  - split; [exact I1|]. split.
    + intros screens [= <-]. destruct (I2 more eq_refl) as [Hmore HE].
      split; [|exact HE]. apply Forall_app. split; [exact Hshown | exact Hmore].
    + intros e H. discriminate H.
  - split; [exact I1|]. split.
    + intros screens H. discriminate H.
    + intros e' [= <-]. now apply I3.
Qed.

Lemma has_exit_cons (turn : Q * menu_entry) (rest : list (Q * menu_entry)) :
  has_exit rest -> has_exit (turn :: rest).
Proof. intros (n & H). exists n. now right. Qed.

Lemma raised_by_session_cons
  (now : Q) (entry : menu_entry) (rest : list (Q * menu_entry)) (e : exception) :
  entry <> Option5 ->
  raised_by_session rest e -> raised_by_session ((now, entry) :: rest) e.
Proof.
  intros Hentry [(n & x & msg & Hin & H)|[He Hno]].
  - left. exists n, x, msg. split; [now right | exact H].
  - right. split; [exact He|]. intros (n & [Heq|Hin]).
    + injection Heq as _ Heq. now apply Hentry.
    + apply Hno. now exists n.
Qed.

(** The loop of the menu, from a validator at rest: the validator is at rest
    at the end; when the loop returns, option 5 was reached and every panel
    was shown at rest; and the loop raises only what a run raised that could
    not open the output file, or the end of the input. *)
Lemma main_menu_loop_at_rest (session : list (Q * menu_entry)) : forall w,
  at_rest (self w) ->
  at_rest (self (snd (main_menu_loop session w)))
  /\ (forall screens, fst (main_menu_loop session w) = Returned screens ->
      Forall shown_ready screens /\ has_exit session)
  /\ (forall e, fst (main_menu_loop session w) = Raised e ->
      raised_by_session session e).
Proof.
  induction session as [|[now entry] rest IH]; intros w Hw.
  - cbn. split; [exact Hw|]. split.
    + intros screens H. discriminate H.
    + intros e [= <-]. right. split; [reflexivity|]. intros (n & []).
  - assert (Hrest : entry <> Option5 -> forall w1, at_rest (self w1) ->
      at_rest (self (snd (main_menu_loop rest w1)))
      /\ (forall screens, fst (main_menu_loop rest w1) = Returned screens ->
          Forall shown_ready screens /\ has_exit ((now, entry) :: rest))
      /\ (forall e, fst (main_menu_loop rest w1) = Raised e ->
          raised_by_session ((now, entry) :: rest) e)).
    { intros Hentry w1 Hw1. destruct (IH w1 Hw1) as (I1 & I2 & I3).
      split; [exact I1|]. split.
      - intros screens H. destruct (I2 screens H) as [Hs He].
        split; [exact Hs | now apply has_exit_cons].
      - intros e He. now apply raised_by_session_cons, I3. }
    cbn [main_menu_loop].
    destruct (show_stats_panel_ready now w Hw) as (top & Htopeq & Htop).
    rewrite (bind_returned _ _ w w top Htopeq).
    destruct entry as [x|a b|a b|now'|].
    + (* option 1 *)
      pose proof (run_validation_at_rest x w Hw) as Hw1.
      destruct (run_validation x w) as [[r|e] w1] eqn:E; cbn [snd] in Hw1.
      * rewrite (bind_returned _ _ w w1 r E).
        apply (main_menu_loop_rest rest w1 [top]); [now constructor|].
        apply Hrest; [discriminate | exact Hw1].
      * rewrite (bind_raised _ _ w w1 e E). cbn. split; [exact Hw1|]. split.
        -- intros screens H. discriminate H.
        -- intros e' [= <-]. left.
           assert (He : fst (run_validation x w) = Raised e) by now rewrite E.
           destruct (setup_io x) as [|msg] eqn:S.
           ++ destruct (confirmed x) eqn:C.
              ** destruct (run_validation_confirmed x w S C) as (t & Et & _).
                 rewrite Et in He. discriminate He.
              ** rewrite run_validation_declined in He by assumption.
                 discriminate He.
           ++ rewrite (run_validation_setup_failed x w msg S) in He.
              injection He as <-. exists now, x, msg.
              split; [now left | now split].
    + (* option 2 *)
      pose proof (set_custom_range_at_rest a b w Hw) as Hw1.
      destruct (set_custom_range_returns a b w) as (r & Hr).
      destruct (set_custom_range a b w) as [o w1] eqn:E. cbn in Hr, Hw1. subst o.
      rewrite (bind_returned _ _ w w1 r E).
      apply (main_menu_loop_rest rest w1 [top]); [now constructor|].
      apply Hrest; [discriminate | exact Hw1].
    + (* option 3 *)
      pose proof (configure_threads_at_rest a b w Hw) as Hw1.
      destruct (configure_threads_returns a b w) as (r & Hr).
      destruct (configure_threads a b w) as [o w1] eqn:E. cbn in Hr, Hw1. subst o.
      rewrite (bind_returned _ _ w w1 r E).
      apply (main_menu_loop_rest rest w1 [top]); [now constructor|].
      apply Hrest; [discriminate | exact Hw1].
    + (* option 4 *)
      destruct (show_stats_panel_ready now' w Hw) as (again & Hagaineq & Hagain).
      rewrite (bind_returned _ _ w w again Hagaineq).
      apply (main_menu_loop_rest rest w [top; again]);
        [constructor; [exact Htop|]; constructor; [exact Hagain | constructor]|].
      apply Hrest; [discriminate | exact Hw].
    + (* option 5 *)
      cbn. split; [exact Hw|]. split.
      * intros screens [= <-]. split.
        -- constructor; [exact Htop | constructor].
        -- exists now. now left.
      * intros e H. discriminate H.
Qed.

Lemma init_at_rest : at_rest init.
Proof.
  unfold at_rest, config_ok, counters_ok. cbn.
  repeat split; vm_compute; (reflexivity || discriminate).
Qed.

Lemma main_menu_start (session : list (Q * menu_entry)) (w : world) :
  main_menu session w = main_menu_loop session (with_self (fun _ => init) w).
Proof. reflexivity. Qed.

(** X14.  Whatever is done at the menu, and however the session ends, the
    validator is left at rest: its range and worker counts pass the tests of
    the dialogs, no counter is negative, valid plus rate-limited accounts do
    not exceed the checked ones, and no run is marked as going on. *)
Theorem main_menu_leaves_validator_at_rest
  (session : list (Q * menu_entry)) (w : world) :
  at_rest (self (snd (main_menu session w))).
Proof.
  rewrite main_menu_start.
  apply main_menu_loop_at_rest. exact init_at_rest.
Qed.

(** X15.  Every configuration panel the menu shows has status Ready, never
    Running, and a total of two accounts at least: the menu only shows its
    panels between runs. *)
Theorem main_menu_shows_ready
  (session : list (Q * menu_entry)) (w : world)
  (screens : list (config_table * stats_panel)) :
  fst (main_menu session w) = Returned screens ->
  Forall shown_ready screens.
Proof.
  rewrite main_menu_start. intros H.
  destruct (main_menu_loop_at_rest session (with_self (fun _ => init) w)
              init_at_rest) as (_ & I2 & _).
  now apply I2.
Qed.

(** X15, on a session with a rejected range, a new range, thread counts, a
    look at the statistics, a run and the exit: seven panels. *)
Lemma main_menu_shows_ready_witness :
  exists screens,
    fst (main_menu Cases.session Scenario.used) = Returned screens
    /\ List.length screens = 7%nat /\ Forall shown_ready screens.
Proof.
  eexists. split; [vm_compute; reflexivity|]. split; [reflexivity|].
  apply (main_menu_shows_ready Cases.session Scenario.used).
  vm_compute. reflexivity.
Defined.

(** X16.  How [main_menu] ends on a session of answered prompts (an
    interrupt from the keyboard is no answer, and is left out).  It returns
    only when the session reaches option 5.  It raises only the [OSError] of a run that could not open the
    output file, or [EOFError] when the input ends without option 5.  A
    session that reaches option 5, and whose runs can all open the output
    file, returns normally. *)
Theorem main_menu_ends (session : list (Q * menu_entry)) (w : world) :
  (forall screens, fst (main_menu session w) = Returned screens ->
     has_exit session)
  /\ (forall e, fst (main_menu session w) = Raised e ->
      raised_by_session session e)
  /\ (has_exit session -> Forall opens_file session ->
      exists screens, fst (main_menu session w) = Returned screens).
Proof.
  rewrite main_menu_start.
  destruct (main_menu_loop_at_rest session (with_self (fun _ => init) w)
              init_at_rest) as (_ & I2 & I3).
  split; [|split].
  - intros screens H. now apply (I2 screens).
  - exact I3.
  - intros Hexit Hopen.
    destruct (main_menu_loop session (with_self (fun _ => init) w))
      as [[screens|e] w1]; cbn in *; [now exists screens|].
    exfalso. destruct (I3 e eq_refl) as [(n & x & msg & Hin & Hs & _)|[_ Hno]].
    + rewrite Forall_forall in Hopen. specialize (Hopen _ Hin).
      cbn in Hopen. congruence.
    + now apply Hno.
Qed.

(** X16, on three sessions: one that reaches option 5, one whose run cannot
    open the output file, one whose input ends after two turns. *)
Lemma main_menu_ends_witness :
  (exists screens, fst (main_menu Cases.session Scenario.fresh) = Returned screens)
  /\ fst (main_menu Cases.broken_session Scenario.fresh)
     = Raised (Exc OSError "Permission denied")
  /\ fst (main_menu Cases.cut_session Scenario.fresh) = Raised end_of_input.
Proof.
  split; [|split; reflexivity].
  apply (main_menu_ends Cases.session Scenario.fresh).
  - exists 20%Q. unfold Cases.session. cbn. tauto.
  - unfold Cases.session. repeat constructor.
Defined.

Section NoRun.

Lemma same_results_refl (w : world) : same_results w w.
Proof. now repeat split. Qed.

Lemma same_results_trans (w1 w2 w3 : world) :
  same_results w1 w2 -> same_results w2 w3 -> same_results w1 w3.
Proof.
  unfold same_results. intros (A1 & A2 & A3) (B1 & B2 & B3).
  repeat split; congruence.
Qed.

Lemma set_custom_range_same_results (a b : string) (w : world) :
  same_results w (snd (set_custom_range a b w)).
Proof.
  destruct (int_value (start_text a w)) as [s|] eqn:Hs;
    [destruct (int_value (end_text b w)) as [e|] eqn:He|].
  - rewrite (set_custom_range_numbers _ _ _ s e Hs He).
    destruct (negb (len (str s) =? 16) || negb (len (str e) =? 16));
      [apply same_results_refl|].
    destruct (s >=? e); [apply same_results_refl | now repeat split].
  - rewrite set_custom_range_not_a_number by auto. apply same_results_refl.
  - rewrite set_custom_range_not_a_number by auto. apply same_results_refl.
Qed.

Lemma configure_threads_same_results (a b : string) (w : world) :
  same_results w (snd (configure_threads a b w)).
Proof.
  destruct (int_value (fetch_text a w)) as [f|] eqn:Hf;
    [destruct (int_value (process_text b w)) as [p|] eqn:Hp|].
  - rewrite (configure_threads_numbers _ _ _ f p Hf Hp). now repeat split.
  - rewrite configure_threads_not_a_number by auto. apply same_results_refl.
  - rewrite configure_threads_not_a_number by auto. apply same_results_refl.
Qed.

Lemma bind_ret_snd {A B} (c : M A) (f : A -> B) (w : world) :
  snd (bind c (fun a => ret (f a)) w) = snd (c w).
Proof. unfold bind. now destruct (c w) as [[a|e] w']. Qed.

(** Turns that are not runs leave the results alone. *)
Lemma main_menu_loop_no_run (session : list (Q * menu_entry)) : forall w,
  Forall not_a_run session ->
  same_results w (snd (main_menu_loop session w)).
Proof.
  induction session as [|[now entry] rest IH]; intros w Hno.
  - apply same_results_refl.
  - inversion Hno as [|? ? Hentry Hrest]; subst.
    cbn [main_menu_loop].
    destruct (show_stats_panel_returns now w) as (p & Htop).
    rewrite (bind_returned _ _ w w _ Htop).
    destruct entry as [x|a b|a b|now'|].
    + contradiction.
    + destruct (set_custom_range_returns a b w) as (r & Hr).
      pose proof (set_custom_range_same_results a b w) as Hs.
      destruct (set_custom_range a b w) as [o w1] eqn:E. cbn in Hr, Hs. subst o.
      rewrite (bind_returned _ _ w w1 r E), bind_ret_snd.
      now apply (same_results_trans w w1), IH.
    + destruct (configure_threads_returns a b w) as (r & Hr).
      pose proof (configure_threads_same_results a b w) as Hs.
      destruct (configure_threads a b w) as [o w1] eqn:E. cbn in Hr, Hs. subst o.
      rewrite (bind_returned _ _ w w1 r E), bind_ret_snd.
      now apply (same_results_trans w w1), IH.
    + destruct (show_stats_panel_returns now' w) as (p' & Hagain).
      rewrite (bind_returned _ _ w w _ Hagain), bind_ret_snd.
      now apply IH.
    + cbn. now repeat split.
Qed.

End NoRun.

(** X17.  Setting the range, configuring the threads, viewing the
    statistics and leaving never touch the results: a session without a run
    leaves the output file as it was, and ends with all four counters at
    zero and no start time; when it reaches option 5 it returns normally. *)
Theorem main_menu_without_run (session : list (Q * menu_entry)) (w : world) :
  Forall not_a_run session ->
  valid_accounts (snd (main_menu session w)) = valid_accounts w
  /\ counters (self (snd (main_menu session w))) = (0, 0, 0, 0)
  /\ start_time (self (snd (main_menu session w))) = None
  /\ (has_exit session ->
      exists screens, fst (main_menu session w) = Returned screens).
Proof.
  intros Hno. rewrite main_menu_start.
  destruct (main_menu_loop_no_run session (with_self (fun _ => init) w) Hno)
    as (Hc & Hs & Hf).
  split; [exact Hf|]. split; [exact Hc|]. split; [exact Hs|].
  intros Hexit.
  destruct (main_menu_loop_at_rest session (with_self (fun _ => init) w)
              init_at_rest) as (_ & _ & I3).
  destruct (main_menu_loop session (with_self (fun _ => init) w))
    as [[screens|e] w1]; cbn in *; [now exists screens|].
  exfalso. destruct (I3 e eq_refl) as [(n & x & msg & Hin & _)|[_ Hnoexit]].
  - rewrite Forall_forall in Hno. now apply (Hno _ Hin).
  - now apply Hnoexit.
Qed.

(** X17, on a session that sets a range, configures the threads and
    leaves, with an output file that holds a line. *)
Lemma main_menu_without_run_witness :
  valid_accounts (snd (main_menu Cases.quiet_session Scenario.used))
  = "1000000000000123" ++ newline
  /\ exists screens,
       fst (main_menu Cases.quiet_session Scenario.used) = Returned screens.
Proof.
  assert (Hno : Forall not_a_run Cases.quiet_session)
    by (unfold Cases.quiet_session; repeat constructor).
  destruct (main_menu_without_run Cases.quiet_session Scenario.used Hno)
    as (Hfile & _ & _ & Hret).
  split; [exact Hfile|].
  apply Hret. exists 3%Q. unfold Cases.quiet_session. cbn. tauto.
Defined.

(** X18.  The Total Accounts row of the configuration table is the number of
    accounts a run submits whenever the range is not empty
    ([start <= end + 1]); for a range with [end + 1 < start] a run submits
    no account and the row is negative. *)
Theorem create_config_table_total (w : world) :
  exists c, create_config_table w = (Returned c, w)
    /\ (range_start (self w) <= range_end (self w) + 1 ->
        cfg_total_accounts c = Z.of_nat (List.length (account_numbers (self w))))
    /\ (range_end (self w) + 1 < range_start (self w) ->
        account_numbers (self w) = [] /\ cfg_total_accounts c < 0).
Proof.
  eexists. split; [reflexivity|]. cbn [cfg_total_accounts]. split.
  - intros H. rewrite account_numbers_length. lia.
  - intros H. split; [|lia].
    unfold account_numbers, range.
    replace (Z.to_nat (range_end (self w) + 1 - range_start (self w))) with 0%nat
      by lia.
    reflexivity.
Qed.

(** X18, on the range of five accounts. *)
Lemma create_config_table_total_witness :
  exists c, fst (create_config_table Scenario.five) = Returned c
    /\ cfg_total_accounts c = 5.
Proof.
  destruct (create_config_table_total Scenario.five) as (c & Hc & Hlen & _).
  exists c. split; [now rewrite Hc|].
  rewrite Hlen by (vm_compute; discriminate). reflexivity.
Defined.

(** X19.  The candidates of a run are exactly the decimal strings of the
    integers from the start of the range to its end, both included, and
    [int()] reads each of them back as its integer. *)
Theorem account_numbers_members (v : AccountValidator) (a : string) :
  In a (account_numbers v)
  <-> exists z, range_start v <= z <= range_end v /\ a = str z
        /\ py_int a = Some z.
Proof.
  unfold account_numbers. rewrite in_map_iff. split.
  - intros (z & <- & Hz). apply range_bounds in Hz.
    exists z. split; [lia|]. split; [reflexivity | apply IntStr.py_int_str].
  - intros (z & Hz & -> & _). exists z. split; [reflexivity|].
    unfold range. apply in_map_iff.
    exists (Z.to_nat (z - range_start v)). split; [lia|].
    apply in_seq. lia.
Qed.

(** X19, for the account 1000000000000003 in the range of five. *)
Lemma account_numbers_members_witness :
  In "1000000000000003" (account_numbers (self Scenario.five)).
Proof.
  apply (account_numbers_members (self Scenario.five) "1000000000000003").
  exists 1000000000000003. split; [vm_compute; split; discriminate|].
  split; reflexivity.
Defined.

(** ** The output file and the valid count *)

Lemma saved_valid (x : run_input) (a : string) :
  saved x a = true -> exists hdrs, network x a = Response 200 hdrs.
Proof.
  unfold saved. destruct (network x a) as [sc hdrs|e]; [|discriminate].
  destruct (append_io x a); [|discriminate].
  intros H. apply Z.eqb_eq in H. subst sc. now exists hdrs.
Qed.

(** X20.  The output file and the valid count agree: after a run that took
    place the file holds one line for each account of a list [found], and the
    table's valid count is the count before the run plus the length of
    [found]; every account of [found] completed with status 200; and when the
    completed fetches are the submitted ones, no account is written twice. *)
Theorem run_validation_file_matches_valid_count
  (x : run_input) (w : world) (t : results_table) :
  fst (run_validation x w) = Returned (Some t) ->
  exists found,
    valid_accounts (snd (run_validation x w)) = lines found
    /\ res_valid t = valid_count (self w) + Z.of_nat (List.length found)
    /\ (forall a, In a found ->
        In a (completed x w) /\ exists hdrs, network x a = Response 200 hdrs)
    /\ (Permutation (account_numbers (self w)) (completed x w) -> NoDup found).
Proof.
  intros Ht. exists (filter (saved x) (completed x w)).
  destruct (run_validation_confirmed_full x w t Ht) as [E _].
  destruct (run_counters x w t Ht) as [Hc Ht'].
  rewrite Hc in Ht'. injection Ht' as _ Hvalid _ _.
  split; [|split; [|split]].
  - rewrite E. cbn [snd after_final_results valid_accounts]. unfold run_loop.
    now rewrite for_each_drain_file.
  - exact Hvalid.
  - intros a Ha. apply filter_In in Ha as [Hin Hs].
    split; [exact Hin | now apply saved_valid].
  - intros Hperm. apply NoDup_filter.
    apply (Permutation_NoDup Hperm), account_numbers_NoDup.
Qed.

(** X20, on the first scenario: one account found, one line, one valid. *)
Lemma run_validation_file_matches_valid_count_witness :
  exists found,
    valid_accounts (snd (run_validation Scenario.mixed Scenario.five)) = lines found
    /\ Z.of_nat (List.length found) = 1.
Proof.
  edestruct (run_validation_file_matches_valid_count Scenario.mixed Scenario.five)
    as (found & Hfile & Hvalid & _); [vm_compute; reflexivity|].
  exists found. split; [exact Hfile|].
  change (valid_count (self Scenario.five)) with 0 in Hvalid.
  cbn [res_valid] in Hvalid. lia.
Defined.
